(** * go-httputil: assertions, recovery middleware and response helpers

    A shallow embedding of the Go package [httputil] and the properties of
    its panic/recover protocol.

    Go values of static type [interface{}] are the inductive [any]; values
    of static type [error] are [option goerror], [None] being the nil
    interface.  Functions that log, write to the [http.ResponseWriter] or
    panic live in a state monad with an outcome that is either a normal
    return or a panic carrying the panic value.

    The response writer and the loggers are recorders: the state keeps the
    header map, the status codes and the values handed to the JSON encoder,
    and the log calls with their arguments, in call order.  Nil pointers
    stored in an interface are not represented, and Go's [int] is [Z]: the
    package only compares status codes. *)

From stdpp Require Import base option list strings gmap.
From Stdlib Require Import ZArith Lia.

Local Open Scope Z_scope.

#[local] Set Warnings "-register-all".

(** ** Dynamic values *)

(** The struct [httperror] of errors.go, over the type of the error values
    its field [err] may hold. *)
Record httperror_ (E : Type) : Type := mk_httperror {
  status : Z;
  err : option E;
}.
Arguments mk_httperror {E} _ _.
Arguments status {E} _.
Arguments err {E} _.

(** Non-nil values whose dynamic type implements [error].
    - [ErrorsNew msg] is the value of [errors.New(msg)] (package go-errors);
      its [Error()] is [msg].
    - [Foreign msg cause] is a value of any other error type with message
      [msg]; [cause = Some c] when the type also has a method
      [Cause() error], returning [c].
    - [Value he] is a [httperror] struct value, as the assertions panic with.
    - [Pointer he] is a non-nil [*httperror], as [NewError] returns.
    - [ForeignHttp s msg c] is a value of a type that is not declared in
      this package and has the methods [Status() int], [Error() string] and
      [Cause() error], returning [s], [msg] and [c]. *)
Inductive goerror : Type :=
| ErrorsNew (msg : string)
| Foreign (msg : string) (cause : option (option goerror))
| Value (he : httperror_ goerror)
| Pointer (he : httperror_ goerror)
| ForeignHttp (s : Z) (msg : string) (c : option goerror).

Abbreviation httperror := (httperror_ goerror).

(** A Go value of static type [error]; [None] is nil. *)
Definition error : Type := option goerror.

(** A Go value of static type [interface{}].  [AAssersion e u] is a value
    of type [assert.AssersionError] (package go-assert): [e] is the error
    that a pointer to it is, [u] the result of its [Unwrap()]. *)
Inductive any : Type :=
| ANil
| ABool (b : bool)
| AInt (n : Z)
| AString (s : string)
| AMap (m : gmap string any)
| AErr (e : goerror)
| AAssersion (e : goerror) (u : any).

(** Conversion of an [error] to [interface{}], implicit in Go. *)
Definition of_error (e : error) : any :=
  match e with
  | Some d => AErr d
  | None => ANil
  end.

(** ** Outcomes and the monad of effects *)

Inductive outcome (A : Type) : Type :=
| Returns (a : A)
| Panics (v : any).
Arguments Returns {A} a.
Arguments Panics {A} v.

(** The panic value of the runtime for a method call through a nil
    interface. *)
Definition nil_dereference : any :=
  AErr (Foreign "runtime error: invalid memory address or nil pointer dereference" None).

Inductive log_entry : Type :=
| SlogError (msg : string) (args : list any)
| LogPrintf (format : string) (args : list any).

(** What an [http.ResponseWriter] has been asked to do: its header map, the
    codes passed to [WriteHeader] and the values passed to
    [json.NewEncoder(w).Encode], both in call order. *)
Record ResponseWriter : Type := mk_writer {
  header : gmap string (list string);
  codes : list Z;
  bodies : list any;
}.

Record world : Type := mk_world {
  logs : list log_entry;
  w : ResponseWriter;
}.

Definition M (S A : Type) : Type := S → outcome A * S.

Definition ret {S A} (a : A) : M S A := λ s, (Returns a, s).

Definition bind {S A B} (c : M S A) (k : A → M S B) : M S B :=
  λ s, match c s with
       | (Returns a, s') => k a s'
       | (Panics v, s') => (Panics v, s')
       end.

(** [panic(v)] for a non-nil [v]. *)
Definition panic {S A} (v : any) : M S A := λ s, (Panics v, s).

(** A pure computation that may panic, run inside [M]. *)
Definition call {S A} (o : outcome A) : M S A := λ s, (o, s).

Notation "x <- c ;; k" := (bind c (λ x, k))
  (at level 100, c at next level, right associativity, only parsing).
Notation "c ;;; k" := (bind c (λ _, k))
  (at level 100, right associativity, only parsing).

(** ** errors.go *)

Definition Status (he : httperror) : Z := status he.

(** Dynamic dispatch of [Error()] on an error value. *)
Fixpoint Error_of (e : goerror) : outcome string :=
  match e with
  | ErrorsNew msg => Returns msg
  | Foreign msg _ => Returns msg
  | ForeignHttp _ msg _ => Returns msg
  | Value he | Pointer he =>
      match err he with
      | Some e' => Error_of e'
      | None => Panics nil_dereference
      end
  end.

(** [x.Error()] for [x] of static type [error]. *)
Definition error_Error (x : error) : outcome string :=
  match x with
  | Some e => Error_of e
  | None => Panics nil_dereference
  end.

Definition Error (he : httperror) : outcome string := error_Error (err he).

Definition Cause (he : httperror) : error := err he.

Definition NewError (status : Z) (err : error) : error :=
  Some (Pointer (mk_httperror status err)).

(** Method lookup on a dynamic error value: [None] when its type has no
    such method.  Every error value has [Error()], see [Error_of]. *)
Definition Status_of (e : goerror) : option Z :=
  match e with
  | Value he | Pointer he => Some (Status he)
  | ForeignHttp s _ _ => Some s
  | ErrorsNew _ | Foreign _ _ => None
  end.

(** ** Type switches and type assertions *)

Definition is_nil (v : any) : bool :=
  match v with
  | ANil => true
  | _ => false
  end.

(** [v.(error)] *)
Definition as_error (v : any) : option goerror :=
  match v with
  | AErr e => Some e
  | _ => None
  end.

(** [v.(string)] *)
Definition as_string (v : any) : option string :=
  match v with
  | AString s => Some s
  | _ => None
  end.

(** [v.(httperror)]: the struct type itself, not a pointer to it. *)
Definition as_httperror (v : any) : option httperror :=
  match v with
  | AErr (Value he) => Some he
  | _ => None
  end.

(** [v.(HttpError)], the interface of [Status() int], [Error() string] and
    [Cause() error]; the second component is [herr.Status()].  Every type of
    the model that has [Status] has the other two methods. *)
Definition as_HttpError (v : any) : option (goerror * Z) :=
  match v with
  | AErr e =>
      match Status_of e with
      | Some s => Some (e, s)
      | None => None
      end
  | _ => None
  end.

(** ** The packages this one imports *)

(** [errors.New] of go-errors. *)
Definition New (text : string) : error := Some (ErrorsNew text).

(** What the sources do not determine about the imported packages:
    - [New_Cause text] is [Some c] when the value of [errors.New(text)]
      satisfies [errors.ErrorWithCause], [c] being its [Cause()];
    - [Sprintf format v] is the text of [fmt.Sprintf(format, v)]. *)
Class Imports : Type := {
  New_Cause : string → option error;
  Sprintf : string → any → string;
}.

(** [e.(errors.ErrorWithCause)], paired with the result of [Cause()].  The
    interface is taken to ask for [Error() string] and [Cause() error], the
    two methods the package calls through it. *)
Definition as_ErrorWithCause {imports : Imports} (e : error) : option (goerror * error) :=
  match e with
  | Some (ErrorsNew msg as d) =>
      match New_Cause msg with
      | Some c => Some (d, c)
      | None => None
      end
  | Some (Foreign _ (Some c) as d) => Some (d, c)
  | Some (Foreign _ None) => None
  | Some (Value he as d) | Some (Pointer he as d) => Some (d, Cause he)
  | Some (ForeignHttp _ _ c as d) => Some (d, c)
  | None => None
  end.

(** [fmt.Errorf(format, v)] without a wrapping verb. *)
Definition Errorf {imports : Imports} (format : string) (v : any) : error :=
  Some (Foreign (Sprintf format v) None).

(** ** Logging and the response writer *)

Definition slog_Error (msg : string) (args : list any) : M world unit :=
  λ s, (Returns tt, mk_world (logs s ++ [SlogError msg args]) (w s)).

Definition log_Printf (format : string) (args : list any) : M world unit :=
  λ s, (Returns tt, mk_world (logs s ++ [LogPrintf format args]) (w s)).

Definition on_writer (f : ResponseWriter → ResponseWriter) : M world unit :=
  λ s, (Returns tt, mk_world (logs s) (f (w s))).

(** [w.Header().Add(key, value)] *)
Definition Header_Add (key value : string) : M world unit :=
  on_writer (λ rw,
    mk_writer (<[key := default [] (header rw !! key) ++ [value]]> (header rw))
              (codes rw) (bodies rw)).

(** [w.Header().Set(key, value)] *)
Definition Header_Set (key value : string) : M world unit :=
  on_writer (λ rw, mk_writer (<[key := [value]]> (header rw)) (codes rw) (bodies rw)).

(** [w.WriteHeader(statusCode)] *)
Definition WriteHeader (statusCode : Z) : M world unit :=
  on_writer (λ rw, mk_writer (header rw) (codes rw ++ [statusCode]) (bodies rw)).

(** [json.NewEncoder(w).Encode(data)] *)
Definition Encode (data : any) : M world unit :=
  on_writer (λ rw, mk_writer (header rw) (codes rw) (bodies rw ++ [data])).

Definition StatusOK : Z := 200.
Definition StatusInternalServerError : Z := 500.

(** ** httputil.go *)

(** The type switch of [ErrorWithStatus], cases in source order. *)
Definition ErrorWithStatus_err_ (err : any) : error :=
  match as_error err with
  | Some e => Some e
  | None =>
      match as_string err with
      | Some e => New e
      | None =>
          match as_httperror err with
          | Some e => Cause e
          | None => New "unknown error occured"
          end
      end
  end.

Definition ErrorWithStatus (statusCode : Z) (err : any) : M world unit :=
  slog_Error "failed" [AString "status"; AInt statusCode; AString "error"; err] ;;;
  let err_ := ErrorWithStatus_err_ err in
  Header_Add "Content-Type" "application/json" ;;;
  WriteHeader statusCode ;;;
  message <- call (error_Error err_) ;;
  Encode (AMap {[ "ok" := ABool false; "message" := AString message ]}).

(** The function [Error] of httputil.go; the name [Error] is the method of
    errors.go here. *)
Definition Error_ (err : any) : M world unit :=
  ErrorWithStatus StatusInternalServerError err.

Definition JsonWithStatus (statusCode : Z) (data : any) : M world unit :=
  Header_Set "Content-Type" "application/json" ;;;
  Header_Set "X-Content-Type-Options" "nosniff" ;;;
  WriteHeader statusCode ;;;
  Encode data.

Definition Json (data : any) : M world unit :=
  JsonWithStatus StatusOK data.

Definition MessageWithStatus (statusCode : Z) (message : string) : M world unit :=
  JsonWithStatus statusCode
    (AMap {[ "ok" := ABool true; "message" := AString message ]}).

Definition Message (message : string) : M world unit :=
  JsonWithStatus StatusOK
    (AMap {[ "ok" := ABool true; "message" := AString message ]}).

Definition OK : M world unit :=
  JsonWithStatus StatusOK (AMap {[ "ok" := ABool true ]}).

Definition InternalErrorWithStatus {imports : Imports} (status : Z) (err : error) : M world unit :=
  match as_ErrorWithCause err with
  | Some (errwc, cause) =>
      text <- call (Error_of errwc) ;;
      slog_Error ("internal error: " +:+ text) [AString "cause"; of_error cause]
  | None =>
      text <- call (error_Error err) ;;
      slog_Error ("internal error: " +:+ text) []
  end ;;;
  Header_Add "Content-Type" "application/json" ;;;
  WriteHeader status ;;;
  Encode (AMap {[ "ok" := ABool false; "message" := AString "internal server error" ]}).

Definition InternalError {imports : Imports} (err : error) : M world unit :=
  InternalErrorWithStatus StatusInternalServerError err.

(** ** One request inside the middleware *)

(** The world together with the number of calls made so far to the cancel
    function that [context.WithCancel(r.Context())] returned. *)
Record request : Type := mk_request {
  wld : world;
  cancel_calls : nat;
}.

(** The state in which the closure returned by a middleware starts. *)
Definition enter (s : world) : request := mk_request s 0.

Definition lift {A} (c : M world A) : M request A :=
  λ s, let (o, s') := c (wld s) in (o, mk_request s' (cancel_calls s)).

Definition cancel : M request unit :=
  λ s, (Returns tt, mk_request (wld s) (S (cancel_calls s))).

(** [defer func() { ... recover() ... }()] around [body], for a deferred
    function that starts by calling [recover()]: the deferred function runs
    when [body] returns or panics, [recover()] gives it the panic value
    ([ANil] when there is none) and stops the panic, so the function ends the
    way the deferred function does. *)
Definition defer_recover {S} (deferred : any → M S unit) (body : M S unit) : M S unit :=
  λ s, match body s with
       | (Returns _, s') => deferred ANil s'
       | (Panics r, s') => deferred r s'
       end.

(** [defer f()] ahead of [body] for an [f] that does not call [recover()]:
    [f] runs when [body] ends, whichever way. *)
Definition defer {S A} (f : M S unit) (body : M S A) : M S A :=
  λ s, match body s with
       | (o, s') =>
           match f s' with
           | (Returns _, s'') => (o, s'')
           | (Panics v, s'') => (Panics v, s'')
           end
       end.

(** ** The assertions and the middleware *)

(** [toErr], the same text in both files that import only go-errors. *)
Definition toErr (err : any) : error :=
  match err with
  | AString v => New v
  | AErr v => Some v
  | _ => New "missing error details"
  end.

(** The file whose middleware is [MiddlewareHTTPAssersionRecoverer]. *)
Module Assersion.

Definition AssertWithStatus (condition : bool) (status : Z) (err : any) : M world unit :=
  if negb condition then
    log_Printf "AssersionError(HTTP: %v): %s" [AInt status; err] ;;;
    panic (AErr (Value (mk_httperror status (toErr err))))
  else ret tt.

Definition Assert (condition : bool) (err : any) : M world unit :=
  AssertWithStatus condition StatusInternalServerError err.

Definition AssertErrorIsNilWithStatus (status : Z) (err : any) : M world unit :=
  if negb (is_nil err) then
    log_Printf "AssersionError(HTTP: %v): %s" [AInt status; err] ;;;
    panic (AErr (Value (mk_httperror status (toErr err))))
  else ret tt.

Definition AssertErrorIsNil (err : error) : M world unit :=
  AssertErrorIsNilWithStatus StatusInternalServerError (of_error err).

(** The deferred function; [r] is the result of [recover()]. *)
Definition recovered {imports : Imports} (r : any) : M request unit :=
  if negb (is_nil r) then
    match as_HttpError r with
    | Some (herr, herr_Status) =>
        (if herr_Status >=? StatusInternalServerError
         then lift (InternalErrorWithStatus herr_Status (Some herr))
         else lift (ErrorWithStatus herr_Status (AErr herr))) ;;;
        cancel
    | None =>
        lift (slog_Error "update" [AString "error"; r]) ;;;
        panic r
    end
  else ret tt.

Definition MiddlewareHTTPAssersionRecoverer {imports : Imports} (next : M world unit) : M request unit :=
  defer_recover recovered (lift next).

End Assersion.

(** The documented file, whose middleware is
    [MiddlewareHTTPAssertionRecoverer] and re-panics. *)
Module Assertion.

Definition AssertWithStatus (condition : bool) (status : Z) (err : any) : M world unit :=
  if negb condition then
    log_Printf "AssertionError(HTTP: %v): %s" [AInt status; err] ;;;
    panic (AErr (Value (mk_httperror status (toErr err))))
  else ret tt.

Definition Assert (condition : bool) (err : any) : M world unit :=
  AssertWithStatus condition StatusInternalServerError err.

Definition AssertErrorIsNilWithStatus (status : Z) (err : any) : M world unit :=
  if negb (is_nil err) then
    log_Printf "AssertionError(HTTP: %v): %s" [AInt status; err] ;;;
    panic (AErr (Value (mk_httperror status (toErr err))))
  else ret tt.

Definition AssertErrorIsNil (err : error) : M world unit :=
  AssertErrorIsNilWithStatus StatusInternalServerError (of_error err).

Definition recovered {imports : Imports} (r : any) : M request unit :=
  if negb (is_nil r) then
    match as_HttpError r with
    | Some (herr, herr_Status) =>
        (if herr_Status >=? StatusInternalServerError
         then lift (InternalErrorWithStatus herr_Status (Some herr))
         else lift (ErrorWithStatus herr_Status (AErr herr))) ;;;
        cancel
    | None =>
        lift (slog_Error "unexpected panic" [AString "error"; r]) ;;;
        panic r
    end
  else ret tt.

Definition MiddlewareHTTPAssertionRecoverer {imports : Imports} (next : M world unit) : M request unit :=
  defer_recover recovered (lift next).

End Assertion.

(** The file that also imports go-assert; its middleware answers every
    panic itself. *)
Module WithGoAssert.

Fixpoint toErr (err : any) : error :=
  match err with
  | AString v => New v
  | AErr v => Some v
  | AAssersion _ u => toErr u
  | _ => New "missing error details"
  end.

Definition AssertWithStatus (condition : bool) (status : Z) (err : any) : M world unit :=
  if negb condition then
    let erra := toErr err in
    log_Printf "AssertionError(HTTP: %v): %s" [AInt status; of_error erra] ;;;
    panic (AErr (Value (mk_httperror status (toErr err))))
  else ret tt.

Definition Assert (condition : bool) (err : any) : M world unit :=
  AssertWithStatus condition StatusInternalServerError err.

Definition AssertErrorIsNilWithStatus (status : Z) (err : any) : M world unit :=
  if negb (is_nil err) then
    let erra := toErr err in
    log_Printf "AssertionError(HTTP: %v): %s" [AInt status; of_error erra] ;;;
    panic (AErr (Value (mk_httperror status erra)))
  else ret tt.

Definition AssertErrorIsNil (err : error) : M world unit :=
  AssertErrorIsNilWithStatus StatusInternalServerError (of_error err).

(** The type switch of the deferred function, cases in source order. *)
Definition respond {imports : Imports} (r : any) : M world unit :=
  match as_httperror r with
  | Some herr =>
      if Status herr >=? StatusInternalServerError
      then InternalErrorWithStatus (Status herr) (Some (Value herr))
      else ErrorWithStatus (Status herr) (AErr (Value herr))
  | None =>
      match r with
      | AAssersion herr _ => InternalError (Some herr)
      | _ =>
          match as_error r with
          | Some herr => InternalError (Some herr)
          | None => InternalError (Errorf "unknown error object %s" r)
          end
      end
  end.

Definition recovered {imports : Imports} (r : any) : M request unit :=
  defer cancel
    (if negb (is_nil r) then
       lift (log_Printf "checking the error object %T" [r]) ;;;
       lift (respond r)
     else ret tt).

Definition MiddlewareHTTPAssertionRecoverer {imports : Imports} (next : M world unit) : M request unit :=
  defer_recover recovered (lift next).

End WithGoAssert.

(** The earlier text of errors.go, whose [Cause] answers only for an
    underlying error that is itself an [errors.ErrorWithCause]. *)
Module Earlier.

Definition Cause {imports : Imports} (he : httperror) : error :=
  match as_ErrorWithCause (err he) with
  | Some (ewc, _) => Some ewc
  | None => None
  end.

(** The earlier [ErrorWithStatus]: [err.(string)] panics on a value that is
    neither an error nor a string. *)
Definition ErrorWithStatus (statusCode : Z) (err : any) : M world unit :=
  slog_Error "failed" [AString "status"; AInt statusCode; AString "error"; err] ;;;
  err_ <- match as_error err with
          | Some e => ret (Some e)
          | None =>
              match as_string err with
              | Some s => ret (New s)
              | None => panic (AErr (Foreign "interface conversion: interface {} is not string" None))
              end
          end ;;
  Header_Add "Content-Type" "application/json" ;;;
  WriteHeader statusCode ;;;
  message <- call (error_Error err_) ;;
  Encode (AMap {[ "ok" := ABool false; "message" := AString message ]}).

End Earlier.

(** * Vocabulary of the statements *)

(** The error envelope [{"ok": false, "message": message}]. *)
Definition failure (message : string) : any :=
  AMap {[ "ok" := ABool false; "message" := AString message ]}.

(** The writer after one more answer: a [Content-Type] value added, one
    status code and one body written. *)
Definition answered (rw : ResponseWriter) (code : Z) (body : any) : ResponseWriter :=
  mk_writer
    (<["Content-Type" := default [] (header rw !! "Content-Type") ++ ["application/json"]]>
       (header rw))
    (codes rw ++ [code]) (bodies rw ++ [body]).

(** The writer after the header and the status code went out and the body
    did not. *)
Definition cut_short (rw : ResponseWriter) (code : Z) : ResponseWriter :=
  mk_writer
    (<["Content-Type" := default [] (header rw !! "Content-Type") ++ ["application/json"]]>
       (header rw))
    (codes rw ++ [code]) (bodies rw).

(** A world in which nothing has been logged or written. *)
Definition fresh : world := mk_world [] (mk_writer ∅ [] []).

(** Imported packages whose [errors.New] values expose no cause. *)
Definition no_causes : Imports :=
  {| New_Cause := λ _, None; Sprintf := λ format _, format |}.

(** The body the middleware sends for status [st] and message [m]. *)
Definition body_for (st : Z) (m : string) : any :=
  if st >=? StatusInternalServerError
  then failure "internal server error"
  else failure m.

(** A middleware, as the statements below see it. *)
Definition middleware : Type := M world unit → M request unit.

(** [mw] answers the panic of [next] with exactly one response of status
    [st]: the message [m] below 500, the fixed text from 500 on. *)
Definition answers (mw : middleware) (next : M world unit) (s s1 : world)
    (st : Z) (m : string) : Prop :=
  let run := mw next (enter s) in
  run.1 = Returns tt ∧
  codes (w (wld run.2)) = codes (w s1) ++ [st] ∧
  (st < 500 → bodies (w (wld run.2)) = bodies (w s1) ++ [failure m]) ∧
  (500 ≤ st → bodies (w (wld run.2)) = bodies (w s1) ++ [failure "internal server error"]).

(** [mw] lets the panic value [r] of [next] through: nothing is written,
    the value is logged with [slog.Error] under the message [msg] and the
    same value is raised again. *)
Definition passes_on (mw : middleware) (msg : string) (next : M world unit)
    (s s1 : world) (r : any) : Prop :=
  let run := mw next (enter s) in
  run.1 = Panics r ∧
  w (wld run.2) = w s1 ∧
  logs (wld run.2) = logs s1 ++ [SlogError msg [AString "error"; r]].

(** The values this package itself builds as status errors: the struct the
    assertions panic with and the pointer [NewError] returns. *)
Definition produced_here (r : any) : Prop :=
  ∃ he : httperror, r = AErr (Value he) ∨ r = AErr (Pointer he).

(** The run [run], started in [s], ends in a panic that carries a
    [httperror] struct of status [st] and cause [cause], and has written
    nothing. *)
Definition abandons (run : outcome unit * world) (s : world) (st : Z) (cause : error) : Prop :=
  ∃ he : httperror,
    run.1 = Panics (AErr (Value he)) ∧ Status he = st ∧ Cause he = cause ∧ w run.2 = w s.

(** What is left of a value once every [assert.AssersionError] around it has
    been unwrapped. *)
Fixpoint unwrapped (x : any) : any :=
  match x with
  | AAssersion _ u => unwrapped u
  | _ => x
  end.

(** The field ["ok"] of the object written last, if the last body is an
    object. *)
Definition last_ok (s : world) : option any :=
  match last (bodies (w s)) with
  | Some (AMap m) => m !! "ok"
  | _ => None
  end.

(** The field ["message"] of the object written last. *)
Definition last_message (s : world) : option any :=
  match last (bodies (w s)) with
  | Some (AMap m) => m !! "message"
  | _ => None
  end.

(** * Properties *)

(** ** The response helpers, run *)

Lemma ErrorWithStatus_run (statusCode : Z) (err : any) (s : world) :
  ErrorWithStatus statusCode err s =
  let said := logs s ++
    [SlogError "failed" [AString "status"; AInt statusCode; AString "error"; err]] in
  match error_Error (ErrorWithStatus_err_ err) with
  | Returns m => (Returns tt, mk_world said (answered (w s) statusCode (failure m)))
  | Panics v => (Panics v, mk_world said (cut_short (w s) statusCode))
  end.
Proof.
  unfold ErrorWithStatus, bind, call, slog_Error, Header_Add, WriteHeader, Encode, on_writer.
  cbn. destruct (error_Error (ErrorWithStatus_err_ err)); reflexivity.
Qed.

Lemma as_ErrorWithCause_same {imports : Imports} (e : error) (errwc : goerror) (cause : error) :
  as_ErrorWithCause e = Some (errwc, cause) → e = Some errwc.
Proof.
  destruct e as [[msg|msg [c|]|he|he|st msg c]|]; cbn; try congruence.
  destruct (New_Cause msg); congruence.
Qed.

Lemma InternalErrorWithStatus_run {imports : Imports} (st : Z) (e : error) (m : string) (s : world) :
  error_Error e = Returns m →
  ∃ args,
    InternalErrorWithStatus st e s =
    (Returns tt,
     mk_world (logs s ++ [SlogError ("internal error: " +:+ m) args])
              (answered (w s) st (failure "internal server error"))).
Proof.
  intros Hm. unfold InternalErrorWithStatus.
  destruct (as_ErrorWithCause e) as [[errwc cause]|] eqn:Hwc.
  - apply as_ErrorWithCause_same in Hwc. subst e. cbn in Hm.
    exists [AString "cause"; of_error cause].
    unfold bind, call. rewrite Hm. reflexivity.
  - exists []. unfold bind, call. rewrite Hm. reflexivity.
Qed.

Lemma InternalErrorWithStatus_panics {imports : Imports} (st : Z) (e : error) (v : any) (s : world) :
  error_Error e = Panics v →
  InternalErrorWithStatus st e s = (Panics v, s).
Proof.
  intros Hm. unfold InternalErrorWithStatus.
  destruct (as_ErrorWithCause e) as [[errwc cause]|] eqn:Hwc.
  - apply as_ErrorWithCause_same in Hwc. subst e. cbn in Hm.
    unfold bind, call. rewrite Hm. reflexivity.
  - unfold bind, call. rewrite Hm. reflexivity.
Qed.

(** ** The deferred function of the re-panicking middlewares, run *)

Lemma as_HttpError_inv (r : any) (herr : goerror) (st : Z) :
  as_HttpError r = Some (herr, st) →
  r = AErr herr ∧ Status_of herr = Some st.
Proof.
  destruct r; cbn; try discriminate.
  destruct (Status_of e) eqn:Hs; intros [= <- <-]; auto.
Qed.

Lemma defer_recover_run {S} (deferred : any → M S unit) (body : M S unit)
    (s s' : S) (o : outcome unit) :
  body s = (o, s') →
  defer_recover deferred body s =
  deferred (match o with Returns _ => ANil | Panics r => r end) s'.
Proof.
  intros Hb. unfold defer_recover. rewrite Hb. destruct o; reflexivity.
Qed.

Lemma lift_run {A} (c : M world A) (q : request) (o : outcome A) (s' : world) :
  c (wld q) = (o, s') →
  lift c q = (o, mk_request s' (cancel_calls q)).
Proof. intros Hc. unfold lift. rewrite Hc. reflexivity. Qed.

(** The branch of a deferred function taken for a value that satisfies
    [HttpError] and whose [Error()] returns. *)
Ltac run_classified Hr Hm q :=
  let Hinv := fresh "Hinv" in
  let Hs := fresh "Hs" in
  let args := fresh "args" in
  let Hrun := fresh "Hrun" in
  apply as_HttpError_inv in Hr as Hinv; destruct Hinv as [-> Hs];
  cbn [is_nil negb]; rewrite Hr; unfold body_for, bind;
  match goal with
  | |- context [lift (InternalErrorWithStatus ?st ?e)] =>
      destruct (st >=? StatusInternalServerError);
      [ destruct (InternalErrorWithStatus_run st e _ (wld q) Hm) as [args Hrun];
        rewrite (lift_run _ _ _ _ Hrun); eexists; reflexivity
      | erewrite lift_run
          by (rewrite ErrorWithStatus_run;
              cbn [ErrorWithStatus_err_ as_error error_Error];
              rewrite Hm; reflexivity);
        eexists; reflexivity ]
  end.

Lemma Assersion_recovered_classified {imports : Imports} (r : any) (herr : goerror) (st : Z)
    (m : string) (q : request) :
  as_HttpError r = Some (herr, st) →
  Error_of herr = Returns m →
  ∃ said,
    Assersion.recovered r q =
    (Returns tt,
     mk_request (mk_world (logs (wld q) ++ [said]) (answered (w (wld q)) st (body_for st m)))
                (S (cancel_calls q))).
Proof.
  intros Hr Hm. unfold Assersion.recovered. run_classified Hr Hm q.
Qed.

Lemma Assertion_recovered_classified {imports : Imports} (r : any) (herr : goerror) (st : Z)
    (m : string) (q : request) :
  as_HttpError r = Some (herr, st) →
  Error_of herr = Returns m →
  ∃ said,
    Assertion.recovered r q =
    (Returns tt,
     mk_request (mk_world (logs (wld q) ++ [said]) (answered (w (wld q)) st (body_for st m)))
                (S (cancel_calls q))).
Proof.
  intros Hr Hm. unfold Assertion.recovered. run_classified Hr Hm q.
Qed.

Lemma Assersion_recovered_unclassified {imports : Imports} (r : any) (q : request) :
  is_nil r = false →
  as_HttpError r = None →
  Assersion.recovered r q =
  (Panics r,
   mk_request (mk_world (logs (wld q) ++ [SlogError "update" [AString "error"; r]]) (w (wld q)))
              (cancel_calls q)).
Proof.
  intros Hn Hr. unfold Assersion.recovered. rewrite Hn, Hr. reflexivity.
Qed.

Lemma Assertion_recovered_unclassified {imports : Imports} (r : any) (q : request) :
  is_nil r = false →
  as_HttpError r = None →
  Assertion.recovered r q =
  (Panics r,
   mk_request
     (mk_world (logs (wld q) ++ [SlogError "unexpected panic" [AString "error"; r]]) (w (wld q)))
     (cancel_calls q)).
Proof.
  intros Hn Hr. unfold Assertion.recovered. rewrite Hn, Hr. reflexivity.
Qed.

Lemma Error_of_panics : ∀ (e : goerror) (v : any),
  Error_of e = Panics v → v = nil_dereference.
Proof.
  fix IH 1.
  intros [msg|msg c|[st [e'|]]|[st [e'|]]|st msg c] v; cbn;
    try discriminate; try (intros [= <-]; reflexivity); apply IH.
Qed.



Lemma body_for_client (st : Z) (m : string) :
  st < StatusInternalServerError → body_for st m = failure m.
Proof.
  intros Hlt. unfold body_for.
  destruct (st >=? StatusInternalServerError) eqn:Hge; [|reflexivity].
  apply Z.geb_le in Hge. lia.
Qed.

Lemma body_for_server (st : Z) (m : string) :
  StatusInternalServerError ≤ st → body_for st m = failure "internal server error".
Proof.
  intros Hle. unfold body_for.
  destruct (st >=? StatusInternalServerError) eqn:Hge; [reflexivity|].
  assert ((st >=? StatusInternalServerError) = true) by (apply Z.geb_le; lia).
  congruence.
Qed.

(** ** The recovery boundary *)

Lemma Assersion_answers {imports : Imports} (next : M world unit) (s s1 : world) (r : any)
    (herr : goerror) (st : Z) (m : string) :
  next s = (Panics r, s1) →
  as_HttpError r = Some (herr, st) →
  Error_of herr = Returns m →
  answers Assersion.MiddlewareHTTPAssersionRecoverer next s s1 st m.
Proof.
  intros Hnext Hr Hm. unfold answers, Assersion.MiddlewareHTTPAssersionRecoverer.
  erewrite defer_recover_run by (apply lift_run; exact Hnext).
  cbn [enter cancel_calls wld].
  destruct (Assersion_recovered_classified r herr st m (mk_request s1 0) Hr Hm)
    as [said ->].
  cbn [fst snd wld w answered codes bodies].
  repeat split; try reflexivity.
  - intros Hlt. rewrite body_for_client by exact Hlt. reflexivity.
  - intros Hle. rewrite body_for_server by exact Hle. reflexivity.
Qed.

Lemma Assertion_answers {imports : Imports} (next : M world unit) (s s1 : world) (r : any)
    (herr : goerror) (st : Z) (m : string) :
  next s = (Panics r, s1) →
  as_HttpError r = Some (herr, st) →
  Error_of herr = Returns m →
  answers Assertion.MiddlewareHTTPAssertionRecoverer next s s1 st m.
Proof.
  intros Hnext Hr Hm. unfold answers, Assertion.MiddlewareHTTPAssertionRecoverer.
  erewrite defer_recover_run by (apply lift_run; exact Hnext).
  cbn [enter cancel_calls wld].
  destruct (Assertion_recovered_classified r herr st m (mk_request s1 0) Hr Hm)
    as [said ->].
  cbn [fst snd wld w answered codes bodies].
  repeat split; try reflexivity.
  - intros Hlt. rewrite body_for_client by exact Hlt. reflexivity.
  - intros Hle. rewrite body_for_server by exact Hle. reflexivity.
Qed.

Lemma Assersion_passes_on {imports : Imports} (next : M world unit) (s s1 : world) (r : any) :
  next s = (Panics r, s1) →
  is_nil r = false →
  as_HttpError r = None →
  passes_on Assersion.MiddlewareHTTPAssersionRecoverer "update" next s s1 r.
Proof.
  intros Hnext Hn Hr. unfold passes_on, Assersion.MiddlewareHTTPAssersionRecoverer.
  erewrite defer_recover_run by (apply lift_run; exact Hnext).
  cbn [enter cancel_calls wld].
  rewrite Assersion_recovered_unclassified by assumption.
  cbn. repeat split.
Qed.

Lemma Assertion_passes_on {imports : Imports} (next : M world unit) (s s1 : world) (r : any) :
  next s = (Panics r, s1) →
  is_nil r = false →
  as_HttpError r = None →
  passes_on Assertion.MiddlewareHTTPAssertionRecoverer "unexpected panic" next s s1 r.
Proof.
  intros Hnext Hn Hr. unfold passes_on, Assertion.MiddlewareHTTPAssertionRecoverer.
  erewrite defer_recover_run by (apply lift_run; exact Hnext).
  cbn [enter cancel_calls wld].
  rewrite Assertion_recovered_unclassified by assumption.
  cbn. repeat split.
Qed.

(** C1, as stated, fails: a status error built without an underlying error
    is a value the middleware catches and classifies, and no response comes
    of it.  [Error()] dereferences nil, the middleware panics with that
    runtime error, and from status 500 on neither a status code nor a body has
    been written. *)
Lemma status_error_with_nil_cause_unanswered :
  let r := of_error (NewError 500 None) in
  let mw := Assersion.MiddlewareHTTPAssersionRecoverer (imports := no_causes) in
  (∃ herr, as_HttpError r = Some (herr, 500)) ∧
  (mw (panic r) (enter fresh)).1 = Panics nil_dereference ∧
  codes (w (wld (mw (panic r) (enter fresh)).2)) = [] ∧
  bodies (w (wld (mw (panic r) (enter fresh)).2)) = [].
Proof.
  cbv zeta. split; [eexists; reflexivity|]. repeat split.
Qed.

(** C1, amended. When the handler panics with a value that satisfies
    [HttpError], whose [Status()] is [st] and whose [Error()] returns [m], the
    recovery middleware returns normally having written exactly one response:
    one status code, [st], and one body, which is [{"ok":false,"message":m}]
    when [st < 500] and [{"ok":false,"message":"internal server error"}] when
    [st >= 500].  Both re-panicking middlewares behave so. *)
Theorem recoverer_answers_status_error {imports : Imports} (next : M world unit) (s s1 : world)
    (r : any) (herr : goerror) (st : Z) (m : string) :
  next s = (Panics r, s1) →
  as_HttpError r = Some (herr, st) →
  Error_of herr = Returns m →
  answers Assersion.MiddlewareHTTPAssersionRecoverer next s s1 st m ∧
  answers Assertion.MiddlewareHTTPAssertionRecoverer next s s1 st m.
Proof.
  intros Hnext Hr Hm. split.
  - eapply Assersion_answers; eassumption.
  - eapply Assertion_answers; eassumption.
Qed.

Lemma recoverer_answers_status_error_witness :
  let next := Assersion.AssertWithStatus false 404 (AString "user not found") in
  let s1 := mk_world
    [LogPrintf "AssersionError(HTTP: %v): %s" [AInt 404; AString "user not found"]]
    (w fresh) in
  answers (Assersion.MiddlewareHTTPAssersionRecoverer (imports := no_causes))
    next fresh s1 404 "user not found" ∧
  answers (Assertion.MiddlewareHTTPAssertionRecoverer (imports := no_causes))
    next fresh s1 404 "user not found".
Proof.
  exact (recoverer_answers_status_error (imports := no_causes)
           (Assersion.AssertWithStatus false 404 (AString "user not found"))
           fresh _ _ _ 404 "user not found" eq_refl eq_refl eq_refl).
Defined.

(** C6, as stated, fails: two runs that differ only in the error value,
    both of status 500, do not end with the same bodies when one of the
    errors has no underlying error.  The run with a message writes the fixed
    body; the run without one panics inside the middleware and writes no body
    at all. *)
Lemma server_error_bodies_differ_without_message :
  let mw := Assersion.MiddlewareHTTPAssersionRecoverer (imports := no_causes) in
  let with_message := of_error (NewError 500 (New "db down")) in
  let without := of_error (NewError 500 None) in
  (∃ h1 h2, as_HttpError with_message = Some (h1, 500) ∧
            as_HttpError without = Some (h2, 500)) ∧
  bodies (w (wld (mw (panic with_message) (enter fresh)).2))
    = [failure "internal server error"] ∧
  bodies (w (wld (mw (panic without) (enter fresh)).2)) = [] ∧
  (mw (panic without) (enter fresh)).1 = Panics nil_dereference.
Proof.
  cbv zeta. split; [do 2 eexists; split; reflexivity|]. repeat split.
Qed.

(** C6, amended. From status 500 on, the response does not depend on the
    error, for errors that have a message: two handlers that leave the same
    writer and panic with two values that satisfy [HttpError] with the same
    status [st >= 500], and whose [Error()] returns, end with the same
    writer, whose one new body is
    [{"ok":false,"message":"internal server error"}] whatever the messages
    [m1] and [m2] of the two errors are. *)
Theorem server_error_body_hides_error {imports : Imports} (next1 next2 : M world unit)
    (s s1 s2 : world) (r1 r2 : any) (h1 h2 : goerror) (st : Z) (m1 m2 : string) :
  next1 s = (Panics r1, s1) →
  next2 s = (Panics r2, s2) →
  w s1 = w s2 →
  as_HttpError r1 = Some (h1, st) →
  as_HttpError r2 = Some (h2, st) →
  Error_of h1 = Returns m1 →
  Error_of h2 = Returns m2 →
  500 ≤ st →
  let run1 := Assersion.MiddlewareHTTPAssersionRecoverer next1 (enter s) in
  let run2 := Assersion.MiddlewareHTTPAssersionRecoverer next2 (enter s) in
  w (wld run1.2) = w (wld run2.2) ∧
  bodies (w (wld run1.2)) = bodies (w s1) ++ [failure "internal server error"] ∧
  bodies (w (wld run2.2)) = bodies (w s2) ++ [failure "internal server error"].
Proof.
  intros Hn1 Hn2 Hw Hr1 Hr2 Hm1 Hm2 Hst.
  unfold Assersion.MiddlewareHTTPAssersionRecoverer.
  erewrite !defer_recover_run by (apply lift_run; eassumption).
  cbn [enter cancel_calls wld].
  destruct (Assersion_recovered_classified r1 h1 st m1 (mk_request s1 0) Hr1 Hm1)
    as [said1 ->].
  destruct (Assersion_recovered_classified r2 h2 st m2 (mk_request s2 0) Hr2 Hm2)
    as [said2 ->].
  cbn [fst snd wld w answered codes bodies].
  rewrite !body_for_server by exact Hst. rewrite Hw. auto.
Qed.

Lemma server_error_body_hides_error_witness :
  let next1 := Assersion.Assert false (AErr (Foreign "dial tcp: refused" None)) in
  let next2 := Assersion.AssertErrorIsNil (Some (Foreign "secret path /etc/x" None)) in
  let run1 := Assersion.MiddlewareHTTPAssersionRecoverer (imports := no_causes) next1 (enter fresh) in
  let run2 := Assersion.MiddlewareHTTPAssersionRecoverer (imports := no_causes) next2 (enter fresh) in
  w (wld run1.2) = w (wld run2.2) ∧
  bodies (w (wld run1.2)) = [failure "internal server error"] ∧
  bodies (w (wld run2.2)) = [failure "internal server error"].
Proof.
  exact (server_error_body_hides_error (imports := no_causes)
           (Assersion.Assert false (AErr (Foreign "dial tcp: refused" None)))
           (Assersion.AssertErrorIsNil (Some (Foreign "secret path /etc/x" None)))
           fresh _ _ _ _ _ _ 500 "dial tcp: refused" "secret path /etc/x"
           eq_refl eq_refl eq_refl eq_refl eq_refl eq_refl eq_refl
           ltac:(lia)).
Defined.

(** C4, as stated, fails: a value of a foreign type with the three methods
    of [HttpError] was not produced by this package, yet the middleware
    answers it with a 404 and returns instead of raising it again. *)
Lemma foreign_status_error_not_passed_on :
  let r := AErr (ForeignHttp 404 "no such page" None) in
  let mw := Assersion.MiddlewareHTTPAssersionRecoverer (imports := no_causes) in
  is_nil r = false ∧
  ¬ produced_here r ∧
  ¬ passes_on mw "update" (panic r) fresh fresh r ∧
  (mw (panic r) (enter fresh)).1 = Returns tt ∧
  codes (w (wld (mw (panic r) (enter fresh)).2)) = [404].
Proof.
  cbv zeta. split; [reflexivity|]. split.
  { intros [he [Heq|Heq]]; discriminate Heq. }
  split; [|split; reflexivity].
  intros [Hout _]. discriminate Hout.
Qed.

(** C4, amended. When the handler panics with a non-nil value that does not
    satisfy [HttpError], each re-panicking middleware writes nothing, logs
    the value with [slog.Error] and panics again with the same value. *)
Theorem recoverer_passes_on_other_panics {imports : Imports} (next : M world unit) (s s1 : world)
    (r : any) :
  next s = (Panics r, s1) →
  is_nil r = false →
  as_HttpError r = None →
  passes_on Assersion.MiddlewareHTTPAssersionRecoverer "update" next s s1 r ∧
  passes_on Assertion.MiddlewareHTTPAssertionRecoverer "unexpected panic" next s s1 r.
Proof.
  intros Hnext Hn Hr. split.
  - apply Assersion_passes_on; assumption.
  - apply Assertion_passes_on; assumption.
Qed.

Lemma recoverer_passes_on_other_panics_witness :
  let r := AErr (Foreign "index out of range" None) in
  passes_on (Assersion.MiddlewareHTTPAssersionRecoverer (imports := no_causes))
    "update" (OK ;;; panic r) fresh (OK fresh).2 r ∧
  passes_on (Assertion.MiddlewareHTTPAssertionRecoverer (imports := no_causes))
    "unexpected panic" (OK ;;; panic r) fresh (OK fresh).2 r.
Proof.
  exact (recoverer_passes_on_other_panics (imports := no_causes)
           (OK ;;; panic (AErr (Foreign "index out of range" None)))
           fresh _ _ eq_refl eq_refl eq_refl).
Defined.

(** The middleware of the file that imports go-assert never lets a value
    through that is not an error: it answers with status 500. *)
Lemma WithGoAssert_answers_other_panics {imports : Imports} (next : M world unit) (s s1 : world)
    (r : any) :
  next s = (Panics r, s1) →
  is_nil r = false →
  as_error r = None →
  (∀ e u, r ≠ AAssersion e u) →
  let run := WithGoAssert.MiddlewareHTTPAssertionRecoverer next (enter s) in
  run.1 = Returns tt ∧
  w (wld run.2) = answered (w s1) 500 (failure "internal server error").
Proof.
  intros Hnext Hn He Ha. unfold WithGoAssert.MiddlewareHTTPAssertionRecoverer.
  erewrite defer_recover_run by (apply lift_run; exact Hnext).
  cbn [enter cancel_calls wld].
  unfold WithGoAssert.recovered, defer. rewrite Hn. cbn [negb].
  destruct r; try discriminate; try (split; reflexivity).
  exfalso. eapply Ha. reflexivity.
Qed.



Lemma failure_inj (m1 m2 : string) : failure m1 = failure m2 → m1 = m2.
Proof.
  unfold failure. intros Heq.
  apply (f_equal (λ v, match v with AMap m => m !! "message" | _ => None end)) in Heq.
  rewrite !lookup_insert_ne in Heq by discriminate.
  rewrite !lookup_singleton_eq in Heq. congruence.
Qed.

(** C3, as stated, fails: for a value that is neither a string nor an error
    [ErrorWithStatus] falls back to another message than [toErr] does, and a
    [httperror] is taken by the case for errors, not replaced by its cause. *)
Lemma ErrorWithStatus_fallback_differs :
  let run := ErrorWithStatus 400 (AInt 42) fresh in
  let he := mk_httperror 404 (New "gone") in
  error_Error (toErr (AInt 42)) = Returns "missing error details" ∧
  error_Error (ErrorWithStatus_err_ (AInt 42)) = Returns "unknown error occured" ∧
  bodies (w run.2) = [failure "unknown error occured"] ∧
  bodies (w run.2) ≠ [failure "missing error details"] ∧
  ErrorWithStatus_err_ (AErr (Value he)) = Some (Value he) ∧
  ErrorWithStatus_err_ (AErr (Value he)) ≠ Cause he.
Proof.
  cbv zeta. repeat split; try reflexivity.
  - rewrite ErrorWithStatus_run. cbn. intros Heq.
    assert (Hm : failure "unknown error occured" = failure "missing error details")
      by congruence.
    apply failure_inj in Hm. discriminate Hm.
  - discriminate.
Qed.

(** C3, amended.  [ErrorWithStatus] turns a string into an error with that
    message and takes an error value as it is, as [toErr] does; a [httperror]
    is such an error value, and its message is the message of its cause.  For
    any other value its error has the message "unknown error occured", where
    [toErr] has "missing error details".  It writes the status code and one
    body [{"ok":false,"message":m}], [m] being the message of the error so
    obtained (no body when taking that message panics). *)
Theorem ErrorWithStatus_normalizes (statusCode : Z) (err : any) (s : world) :
  match err with
  | AString t => ErrorWithStatus_err_ err = New t ∧ toErr err = New t
  | AErr e => ErrorWithStatus_err_ err = Some e ∧ toErr err = Some e
  | _ =>
      ErrorWithStatus_err_ err = New "unknown error occured" ∧
      toErr err = New "missing error details"
  end ∧
  (∀ he : httperror,
     Error_of (Value he) = Error he ∧ Error he = error_Error (Cause he)) ∧
  ErrorWithStatus statusCode err s =
  (let said := logs s ++
     [SlogError "failed" [AString "status"; AInt statusCode; AString "error"; err]] in
   match error_Error (ErrorWithStatus_err_ err) with
   | Returns m => (Returns tt, mk_world said (answered (w s) statusCode (failure m)))
   | Panics v => (Panics v, mk_world said (cut_short (w s) statusCode))
   end).
Proof.
  split; [|split].
  - destruct err; split; reflexivity.
  - intros [st [e|]]; split; reflexivity.
  - apply ErrorWithStatus_run.
Qed.

(** ** The assertions *)

(** C5. Each assertion panics exactly when its check fails: when it holds
    the world is left as it was (nothing logged, nothing written, normal
    return); when it fails the panic carries a [httperror] with the given
    status (500 for the bare forms) and the normalized input as cause, which
    for [AssertErrorIsNil] is the error itself, and what follows the call is
    not run. *)
Theorem assertions_abandon_exactly_on_failure (condition : bool) (st : Z) (x : any)
    (e : goerror) (s : world) (rest : M world unit) :
  (if condition
   then Assersion.AssertWithStatus condition st x s = (Returns tt, s)
   else abandons (Assersion.AssertWithStatus condition st x s) s st (toErr x)) ∧
  (if condition
   then Assersion.Assert condition x s = (Returns tt, s)
   else abandons (Assersion.Assert condition x s) s 500 (toErr x)) ∧
  (if is_nil x
   then Assersion.AssertErrorIsNilWithStatus st x s = (Returns tt, s)
   else abandons (Assersion.AssertErrorIsNilWithStatus st x s) s st (toErr x)) ∧
  Assersion.AssertErrorIsNil None s = (Returns tt, s) ∧
  abandons (Assersion.AssertErrorIsNil (Some e) s) s 500 (Some e) ∧
  (Assersion.AssertWithStatus false st x ;;; rest) s = Assersion.AssertWithStatus false st x s ∧
  (Assersion.AssertErrorIsNil (Some e) ;;; rest) s = Assersion.AssertErrorIsNil (Some e) s.
Proof.
  repeat split.
  - destruct condition; [reflexivity|]. eexists. repeat split.
  - destruct condition; [reflexivity|]. eexists. repeat split.
  - destruct (is_nil x) eqn:Hx.
    + unfold Assersion.AssertErrorIsNilWithStatus. rewrite Hx. reflexivity.
    + unfold Assersion.AssertErrorIsNilWithStatus. rewrite Hx. eexists. repeat split.
  - eexists. repeat split.
Qed.

(** The documented file's assertions differ from those above in the text of
    the log line only. *)
Lemma Assertion_assertions_same_outcome (condition : bool) (st : Z) (x : any)
    (e : error) (s : world) :
  (Assertion.AssertWithStatus condition st x s).1 =
    (Assersion.AssertWithStatus condition st x s).1 ∧
  (Assertion.Assert condition x s).1 = (Assersion.Assert condition x s).1 ∧
  (Assertion.AssertErrorIsNilWithStatus st x s).1 =
    (Assersion.AssertErrorIsNilWithStatus st x s).1 ∧
  (Assertion.AssertErrorIsNil e s).1 = (Assersion.AssertErrorIsNil e s).1.
Proof.
  repeat split.
  - destruct condition; reflexivity.
  - destruct condition; reflexivity.
  - unfold Assertion.AssertErrorIsNilWithStatus, Assersion.AssertErrorIsNilWithStatus.
    destruct (is_nil x); reflexivity.
  - destruct e; reflexivity.
Qed.

(** C7, as stated, fails for the [toErr] of the file that imports
    go-assert: an [assert.AssersionError] is neither a string nor an error,
    and it is not given the fallback message but normalized as the value it
    wraps. *)
Lemma WithGoAssert_toErr_wrapper_not_fallback :
  let x := AAssersion (Foreign "assertion failed" None) (AString "no such user") in
  as_string x = None ∧
  as_error x = None ∧
  error_Error (WithGoAssert.toErr x) = Returns "no such user" ∧
  error_Error (WithGoAssert.toErr x) ≠ Returns "missing error details".
Proof.
  cbv zeta. repeat split. discriminate.
Qed.

(** C7, amended. Both [toErr] functions are total and never yield nil, give
    an error with that message for a string and the error itself for an
    error, and normalizing their result again changes nothing.  The plain
    [toErr] gives the message "missing error details" for any other input;
    the [toErr] of the file that imports go-assert normalizes an
    [assert.AssersionError] as the value it wraps and gives that message for
    what is left. *)
Theorem toErr_total_idempotent (x : any) :
  (is_Some (toErr x) ∧
   match x with
   | AString t => toErr x = New t ∧ error_Error (toErr x) = Returns t
   | AErr e => toErr x = Some e
   | _ => error_Error (toErr x) = Returns "missing error details"
   end ∧
   toErr (of_error (toErr x)) = toErr x) ∧
  (is_Some (WithGoAssert.toErr x) ∧
   match x with
   | AString t =>
       WithGoAssert.toErr x = New t ∧ error_Error (WithGoAssert.toErr x) = Returns t
   | AErr e => WithGoAssert.toErr x = Some e
   | AAssersion _ u => WithGoAssert.toErr x = WithGoAssert.toErr u
   | _ => error_Error (WithGoAssert.toErr x) = Returns "missing error details"
   end ∧
   WithGoAssert.toErr (of_error (WithGoAssert.toErr x)) = WithGoAssert.toErr x).
Proof.
  split.
  - destruct x; cbn; repeat split; eauto.
  - split; [|split].
    + induction x; cbn; eauto.
    + destruct x; cbn; repeat split.
    + induction x; cbn; auto.
Qed.

(** With go-assert imported, [toErr] also unwraps an [AssersionError]; it
    is still total, never nil and idempotent. *)
Lemma WithGoAssert_toErr_total_idempotent (x : any) :
  is_Some (WithGoAssert.toErr x) ∧
  WithGoAssert.toErr (of_error (WithGoAssert.toErr x)) = WithGoAssert.toErr x.
Proof.
  induction x; cbn; try (split; [eauto|reflexivity]). exact IHx.
Qed.

Lemma WithGoAssert_toErr_unwraps (e : goerror) (t : string) :
  WithGoAssert.toErr (AAssersion e (AString t)) = New t.
Proof. reflexivity. Qed.

(** ** The status error *)

(** C8, as stated, fails: [NewError] keeps a nil error, so the cause of the
    value it returns is nil. *)
Lemma NewError_keeps_nil_cause :
  ∃ he : httperror, NewError 404 None = Some (Pointer he) ∧ Cause he = None.
Proof. eexists. split; reflexivity. Qed.

(** In the earlier text of errors.go [Cause()] is nil whenever the
    underlying error has no cause of its own. *)
Lemma Earlier_Cause_nil_for_plain_error {imports : Imports} (st : Z) (msg : string) :
  Earlier.Cause (mk_httperror st (Some (Foreign msg None))) = None.
Proof. reflexivity. Qed.

(** C8, amended.  A status error holds what it was built with: the value
    returned by [NewError st e] has status [st] and cause [e], the value a
    failed assertion panics with has the given status and the normalized
    input as cause.  The cause of the latter is never nil; the cause of the
    former is nil exactly when [e] is. *)
Theorem status_error_keeps_its_fields (st : Z) (e : error) (x : any) (s : world) :
  (∃ he : httperror,
     NewError st e = Some (Pointer he) ∧ Status he = st ∧ Cause he = e ∧
     (Cause he = None ↔ e = None)) ∧
  (∃ he : httperror,
     (Assersion.AssertWithStatus false st x s).1 = Panics (AErr (Value he)) ∧
     Status he = st ∧ Cause he = toErr x ∧ is_Some (Cause he)) ∧
  (if is_nil x then True else
   ∃ he : httperror,
     (Assersion.AssertErrorIsNilWithStatus st x s).1 = Panics (AErr (Value he)) ∧
     Status he = st ∧ Cause he = toErr x ∧ is_Some (Cause he)).
Proof.
  split; [|split].
  - eexists. repeat split; auto.
  - eexists. repeat split. destruct x; cbn; eauto.
  - destruct x; cbn [is_nil]; try exact I; eexists; repeat split; cbn; eauto.
Qed.

(** ** The bare helpers *)

(** C9. Each bare helper is its [WithStatus] form at the default status:
    500 for [Error] and [InternalError], 200 for [Json], [Message] and
    [OK]. *)
Theorem bare_helpers_use_default_status {imports : Imports} (e p : any) (err : error)
    (m : string) (s : world) :
  Error_ e s = ErrorWithStatus 500 e s ∧
  InternalError err s = InternalErrorWithStatus 500 err s ∧
  Json p s = JsonWithStatus 200 p s ∧
  Message m s = MessageWithStatus 200 m s ∧
  OK s = JsonWithStatus 200 (AMap {[ "ok" := ABool true ]}) s.
Proof. repeat split. Qed.

(** What [JsonWithStatus] leaves in the writer: both headers set, one
    status code and the payload itself as the body. *)
Lemma JsonWithStatus_run (statusCode : Z) (data : any) (s : world) :
  JsonWithStatus statusCode data s =
  (Returns tt,
   mk_world (logs s)
     (mk_writer
        (<["X-Content-Type-Options" := ["nosniff"]]>
           (<["Content-Type" := ["application/json"]]> (header (w s))))
        (codes (w s) ++ [statusCode]) (bodies (w s) ++ [data]))).
Proof. reflexivity. Qed.

Lemma OK_and_Message_run (text : string) :
  codes (w (OK fresh).2) = [200] ∧
  bodies (w (OK fresh).2) = [AMap {[ "ok" := ABool true ]}] ∧
  codes (w (Message text fresh).2) = [200] ∧
  bodies (w (Message text fresh).2)
    = [AMap {[ "ok" := ABool true; "message" := AString text ]}] ∧
  codes (w (MessageWithStatus 201 text fresh).2) = [201] ∧
  header (w (OK fresh).2) !! "Content-Type" = Some ["application/json"].
Proof. repeat split. Qed.

(** The earlier [ErrorWithStatus] panics on a value that is neither an
    error nor a string, before anything is written. *)
Lemma Earlier_ErrorWithStatus_panics_on_other (statusCode n : Z) (s : world) :
  ∃ v, (Earlier.ErrorWithStatus statusCode (AInt n) s).1 = Panics v ∧
       w (Earlier.ErrorWithStatus statusCode (AInt n) s).2 = w s.
Proof. eexists. split; reflexivity. Qed.

(** ** The cancel function *)

Lemma lift_keeps_cancel_calls {A} (c : M world A) (q : request) :
  cancel_calls (lift c q).2 = cancel_calls q.
Proof. unfold lift. destruct (c (wld q)). reflexivity. Qed.

(** In the re-panicking middleware a handler that returns leaves the cancel
    function uncalled, and so does a panic that is passed on. *)
Lemma Assersion_no_cancel_without_answer {imports : Imports} (next : M world unit) (s s1 : world)
    (o : outcome unit) :
  next s = (o, s1) →
  match o with
  | Returns _ => True
  | Panics r => is_nil r = true ∨ as_HttpError r = None
  end →
  cancel_calls (Assersion.MiddlewareHTTPAssersionRecoverer next (enter s)).2 = 0%nat.
Proof.
  intros Hnext Ho. unfold Assersion.MiddlewareHTTPAssersionRecoverer.
  erewrite defer_recover_run by (apply lift_run; exact Hnext).
  cbn [enter cancel_calls wld].
  destruct o as [[]|r]; [reflexivity|].
  destruct (is_nil r) eqn:Hn.
  - unfold Assersion.recovered. rewrite Hn. reflexivity.
  - destruct Ho as [Ho|Ho]; [discriminate Ho|].
    rewrite Assersion_recovered_unclassified by assumption. reflexivity.
Qed.

(** C2 fails in the middleware [MiddlewareHTTPAssersionRecoverer]: when the
    handler returns normally (here after [OK]) the cancel function is never
    called, and neither is it when a panic is passed on; only an answered
    panic calls it. *)
Theorem cancel_missed_on_normal_completion :
  let mw := Assersion.MiddlewareHTTPAssersionRecoverer (imports := no_causes) in
  let boom := AString "boom" in
  let denied := Assersion.AssertWithStatus false 403 (AString "denied") in
  (mw OK (enter fresh)).1 = Returns tt ∧
  cancel_calls (mw OK (enter fresh)).2 = 0%nat ∧
  (mw (panic boom) (enter fresh)).1 = Panics boom ∧
  cancel_calls (mw (panic boom) (enter fresh)).2 = 0%nat ∧
  (mw denied (enter fresh)).1 = Returns tt ∧
  cancel_calls (mw denied (enter fresh)).2 = 1%nat.
Proof. cbv zeta. repeat split. Qed.

(** The documented re-panicking middleware misses the same calls. *)
Lemma Assertion_cancel_missed_on_normal_completion :
  let mw := Assertion.MiddlewareHTTPAssertionRecoverer (imports := no_causes) in
  cancel_calls (mw OK (enter fresh)).2 = 0%nat ∧
  cancel_calls (mw (panic (AString "boom")) (enter fresh)).2 = 0%nat.
Proof. cbv zeta. repeat split. Qed.

(** The middleware of the file that imports go-assert defers the call: the
    cancel function is called exactly once however the handler ends. *)
Lemma WithGoAssert_cancels_exactly_once {imports : Imports} (next : M world unit) (s : world) :
  cancel_calls (WithGoAssert.MiddlewareHTTPAssertionRecoverer next (enter s)).2 = 1%nat.
Proof.
  unfold WithGoAssert.MiddlewareHTTPAssertionRecoverer, defer_recover.
  assert (Hbody : ∀ r q,
    cancel_calls (WithGoAssert.recovered r q).2 = S (cancel_calls q)).
  { intros r q. unfold WithGoAssert.recovered, defer.
    destruct (is_nil r); cbn [negb]; [reflexivity|].
    unfold bind.
    pose proof (lift_keeps_cancel_calls
                  (log_Printf "checking the error object %T" [r]) q) as H1.
    destruct (lift (log_Printf "checking the error object %T" [r]) q) as [[[]|v] q1];
      cbn [snd] in H1.
    - pose proof (lift_keeps_cancel_calls (WithGoAssert.respond r) q1) as H2.
      destruct (lift (WithGoAssert.respond r) q1) as [o q2]. cbn in *. congruence.
    - cbn. congruence. }
  pose proof (lift_keeps_cancel_calls next (enter s)) as Hn.
  destruct (lift next (enter s)) as [[[]|r] q1]; cbn [snd] in Hn;
    rewrite Hbody, Hn; reflexivity.
Qed.

(** * Further properties of the package *)

(** ** Shared steps *)

Lemma error_Error_panics (e : error) (v : any) :
  error_Error e = Panics v → v = nil_dereference.
Proof.
  destruct e as [d|]; cbn.
  - apply Error_of_panics.
  - intros [= <-]. reflexivity.
Qed.

Lemma WithGoAssert_recovered_run {imports : Imports} (r : any) (q : request)
    (o : outcome unit) (s' : world) :
  is_nil r = false →
  WithGoAssert.respond r
    (mk_world (logs (wld q) ++ [LogPrintf "checking the error object %T" [r]]) (w (wld q)))
    = (o, s') →
  WithGoAssert.recovered r q = (o, mk_request s' (S (cancel_calls q))).
Proof.
  intros Hn Hrun. unfold WithGoAssert.recovered, defer, bind. rewrite Hn. cbn [negb].
  unfold lift at 1. cbn [log_Printf wld cancel_calls].
  erewrite lift_run by exact Hrun.
  destruct o as [[]|v]; reflexivity.
Qed.

Lemma WithGoAssert_middleware_run {imports : Imports} (next : M world unit) (s s1 : world)
    (r : any) (o : outcome unit) (s' : world) :
  next s = (Panics r, s1) →
  is_nil r = false →
  WithGoAssert.respond r
    (mk_world (logs s1 ++ [LogPrintf "checking the error object %T" [r]]) (w s1))
    = (o, s') →
  WithGoAssert.MiddlewareHTTPAssertionRecoverer next (enter s) = (o, mk_request s' 1).
Proof.
  intros Hnext Hn Hrun. unfold WithGoAssert.MiddlewareHTTPAssertionRecoverer.
  erewrite defer_recover_run by (apply lift_run; exact Hnext).
  cbn [enter cancel_calls wld].
  apply (WithGoAssert_recovered_run r (mk_request s1 0) o s' Hn Hrun).
Qed.

(** ** The two re-panicking middlewares *)

(** X1. The middleware of the documented file and
    [MiddlewareHTTPAssersionRecoverer] end every request the same way: same
    outcome, same writer, same number of calls to the cancel function.  Only
    the text of the log line for a panic that is passed on differs. *)
Theorem documented_recoverer_agrees {imports : Imports} (next : M world unit) (s : world) :
  let a := Assersion.MiddlewareHTTPAssersionRecoverer next (enter s) in
  let b := Assertion.MiddlewareHTTPAssertionRecoverer next (enter s) in
  a.1 = b.1 ∧
  w (wld a.2) = w (wld b.2) ∧
  cancel_calls a.2 = cancel_calls b.2 ∧
  length (logs (wld a.2)) = length (logs (wld b.2)).
Proof.
  unfold Assersion.MiddlewareHTTPAssersionRecoverer,
    Assertion.MiddlewareHTTPAssertionRecoverer, defer_recover.
  destruct (lift next (enter s)) as [[[]|r] q].
  - cbn. auto.
  - unfold Assersion.recovered, Assertion.recovered.
    destruct (is_nil r); cbn [negb]; [cbn; auto|].
    destruct (as_HttpError r) as [[herr st]|]; [auto|].
    cbn. rewrite !length_app. auto.
Qed.

(** X2. A handler that returns normally is not disturbed: each of the three
    middlewares returns normally and leaves the log and the writer exactly
    as the handler left them. *)
Theorem recoverers_transparent_on_return {imports : Imports} (next : M world unit)
    (s s1 : world) :
  next s = (Returns tt, s1) →
  let a := Assersion.MiddlewareHTTPAssersionRecoverer next (enter s) in
  let b := Assertion.MiddlewareHTTPAssertionRecoverer next (enter s) in
  let c := WithGoAssert.MiddlewareHTTPAssertionRecoverer next (enter s) in
  (a.1 = Returns tt ∧ wld a.2 = s1) ∧
  (b.1 = Returns tt ∧ wld b.2 = s1) ∧
  (c.1 = Returns tt ∧ wld c.2 = s1).
Proof.
  intros Hnext.
  unfold Assersion.MiddlewareHTTPAssersionRecoverer,
    Assertion.MiddlewareHTTPAssertionRecoverer,
    WithGoAssert.MiddlewareHTTPAssertionRecoverer.
  erewrite !defer_recover_run by (apply lift_run; exact Hnext).
  cbn. auto.
Qed.

Lemma recoverers_transparent_on_return_witness :
  let next := Message "done" in
  let s1 := (Message "done" fresh).2 in
  let a := Assersion.MiddlewareHTTPAssersionRecoverer (imports := no_causes) next (enter fresh) in
  let b := Assertion.MiddlewareHTTPAssertionRecoverer (imports := no_causes) next (enter fresh) in
  let c := WithGoAssert.MiddlewareHTTPAssertionRecoverer (imports := no_causes) next (enter fresh) in
  (a.1 = Returns tt ∧ wld a.2 = s1) ∧
  (b.1 = Returns tt ∧ wld b.2 = s1) ∧
  (c.1 = Returns tt ∧ wld c.2 = s1).
Proof.
  exact (recoverers_transparent_on_return (imports := no_causes)
           (Message "done") fresh _ eq_refl).
Defined.

(** ** Assertions under the middleware *)

(** X3. A failed assertion under the middleware becomes one response: when
    the normalized input has the message [m], the handler
    [AssertWithStatus(false, st, x)] is answered with the status [st], the
    body carrying [m] below 500 and the fixed text from 500 on. *)
Theorem failed_assertion_is_answered {imports : Imports} (st : Z) (x : any) (m : string)
    (s : world) :
  error_Error (toErr x) = Returns m →
  let s1 := mk_world (logs s ++ [LogPrintf "AssersionError(HTTP: %v): %s" [AInt st; x]])
                     (w s) in
  answers Assersion.MiddlewareHTTPAssersionRecoverer
    (Assersion.AssertWithStatus false st x) s s1 st m.
Proof.
  intros Hm s1.
  eapply (Assersion_answers _ s s1 _ (Value (mk_httperror st (toErr x))) st m).
  - reflexivity.
  - reflexivity.
  - exact Hm.
Qed.

Lemma failed_assertion_is_answered_witness :
  let s1 := mk_world [LogPrintf "AssersionError(HTTP: %v): %s" [AInt 422; ABool true]]
                     (w fresh) in
  answers (Assersion.MiddlewareHTTPAssersionRecoverer (imports := no_causes))
    (Assersion.AssertWithStatus false 422 (ABool true)) fresh s1 422
    "missing error details".
Proof.
  exact (failed_assertion_is_answered (imports := no_causes) 422 (ABool true)
           "missing error details" fresh eq_refl).
Defined.

(** X5. A status error without an underlying error brings the re-panicking
    middleware down: [Error()] dereferences nil inside the deferred function,
    the middleware panics with that runtime error and the cancel function is
    not called.  From status 500 on nothing has been logged or written by
    then; below 500 the log line, the header and the status code are already
    out and the body is missing. *)
Theorem status_error_without_message_crashes {imports : Imports} (next : M world unit)
    (s s1 : world) (r : any) (herr : goerror) (st : Z) (v : any) :
  next s = (Panics r, s1) →
  as_HttpError r = Some (herr, st) →
  Error_of herr = Panics v →
  let run := Assersion.MiddlewareHTTPAssersionRecoverer next (enter s) in
  run.1 = Panics nil_dereference ∧
  cancel_calls run.2 = 0%nat ∧
  (500 ≤ st → wld run.2 = s1) ∧
  (st < 500 →
     w (wld run.2) = cut_short (w s1) st ∧
     logs (wld run.2) = logs s1 ++
       [SlogError "failed" [AString "status"; AInt st; AString "error"; r]]).
Proof.
  intros Hnext Hr Hm. pose proof (Error_of_panics herr v Hm) as ->.
  unfold Assersion.MiddlewareHTTPAssersionRecoverer.
  erewrite defer_recover_run by (apply lift_run; exact Hnext).
  cbn [enter cancel_calls wld]. unfold Assersion.recovered.
  apply as_HttpError_inv in Hr as Hinv. destruct Hinv as [-> Hs].
  cbn [is_nil negb]. rewrite Hr. unfold bind.
  destruct (st >=? StatusInternalServerError) eqn:Hge.
  - erewrite lift_run by (apply InternalErrorWithStatus_panics; exact Hm).
    cbn. split; [reflexivity|]. split; [reflexivity|]. split; [reflexivity|].
    intros Hlt. apply Z.geb_le in Hge. unfold StatusInternalServerError in Hge. lia.
  - erewrite lift_run
      by (rewrite ErrorWithStatus_run;
          cbn [ErrorWithStatus_err_ as_error error_Error]; rewrite Hm; reflexivity).
    cbn. split; [reflexivity|]. split; [reflexivity|]. split; [|split; reflexivity].
    intros Hle. assert ((st >=? StatusInternalServerError) = true)
      by (apply Z.geb_le; unfold StatusInternalServerError; lia).
    congruence.
Qed.

Lemma status_error_without_message_crashes_witness :
  let r := of_error (NewError 404 None) in
  let run := Assersion.MiddlewareHTTPAssersionRecoverer (imports := no_causes)
               (panic r) (enter fresh) in
  run.1 = Panics nil_dereference ∧
  cancel_calls run.2 = 0%nat ∧
  (500 ≤ 404 → wld run.2 = fresh) ∧
  (404 < 500 →
     w (wld run.2) = cut_short (w fresh) 404 ∧
     logs (wld run.2) = logs fresh ++
       [SlogError "failed" [AString "status"; AInt 404; AString "error"; r]]).
Proof.
  exact (status_error_without_message_crashes (imports := no_causes)
           (panic (of_error (NewError 404 None))) fresh fresh _ _ 404 nil_dereference
           eq_refl eq_refl eq_refl).
Defined.

(** ** The response helpers *)

(** X6. [InternalErrorWithStatus] is all or nothing.  When the error has a
    message it logs one line that carries the message, adds the content
    type, writes the status code and the fixed body, and returns.  When
    [Error()] panics, as it does for a nil error, it panics with the nil
    dereference before anything is logged or written. *)
Theorem InternalErrorWithStatus_all_or_nothing {imports : Imports} (st : Z) (e : error)
    (s : world) :
  match error_Error e with
  | Returns m =>
      ∃ args,
        InternalErrorWithStatus st e s =
        (Returns tt,
         mk_world (logs s ++ [SlogError ("internal error: " +:+ m) args])
                  (answered (w s) st (failure "internal server error")))
  | Panics v =>
      v = nil_dereference ∧ InternalErrorWithStatus st e s = (Panics nil_dereference, s)
  end ∧
  InternalErrorWithStatus st None s = (Panics nil_dereference, s).
Proof.
  split.
  - destruct (error_Error e) as [m|v] eqn:Hm.
    + apply InternalErrorWithStatus_run. exact Hm.
    + pose proof (error_Error_panics e v Hm) as ->. split; [reflexivity|].
      apply InternalErrorWithStatus_panics. exact Hm.
  - apply InternalErrorWithStatus_panics. reflexivity.
Qed.

(** X7. The two error helpers touch one header only.  [ErrorWithStatus]
    adds a value to [Content-Type], after the values that are already there
    and also when it goes on to panic; every other header is left as it was
    by [ErrorWithStatus] and by [InternalErrorWithStatus]. *)
Theorem error_helpers_add_content_type_only {imports : Imports} (st : Z) (x : any)
    (e : error) (s : world) (key : string) :
  header (w (ErrorWithStatus st x s).2) !! "Content-Type"
    = Some (default [] (header (w s) !! "Content-Type") ++ ["application/json"]) ∧
  (if decide (key = "Content-Type") then True else
     header (w (ErrorWithStatus st x s).2) !! key = header (w s) !! key ∧
     header (w (InternalErrorWithStatus st e s).2) !! key = header (w s) !! key).
Proof.
  rewrite ErrorWithStatus_run. split.
  - destruct (error_Error (ErrorWithStatus_err_ x)); cbn; apply lookup_insert_eq.
  - destruct (decide (key = "Content-Type")) as [|Hne]; [exact I|]. split.
    + destruct (error_Error (ErrorWithStatus_err_ x)); cbn;
        apply lookup_insert_ne; congruence.
    + destruct (error_Error e) as [m|v] eqn:Hm.
      * destruct (InternalErrorWithStatus_run st e m s Hm) as [args ->]. cbn.
        apply lookup_insert_ne; congruence.
      * rewrite (InternalErrorWithStatus_panics st e v s Hm). reflexivity.
Qed.

(** X8. [JsonWithStatus] sets its two headers rather than adding to them.
    For status codes that a response writer accepts, from 100 to 999, it
    returns having logged nothing, and whatever the header map held,
    [Content-Type] is the single value [application/json] afterwards and
    [X-Content-Type-Options] the single value [nosniff], so a second call
    leaves the header map as the first did; both status codes and both
    payloads are handed to the writer in order, the payloads as they are. *)
Theorem JsonWithStatus_sets_headers (st1 st2 : Z) (p1 p2 : any) (s : world) :
  100 ≤ st1 ≤ 999 →
  100 ≤ st2 ≤ 999 →
  let once := JsonWithStatus st1 p1 s in
  let twice := (JsonWithStatus st1 p1 ;;; JsonWithStatus st2 p2) s in
  once.1 = Returns tt ∧
  logs once.2 = logs s ∧
  header (w once.2) !! "Content-Type" = Some ["application/json"] ∧
  header (w once.2) !! "X-Content-Type-Options" = Some ["nosniff"] ∧
  header (w twice.2) = header (w once.2) ∧
  codes (w twice.2) = codes (w s) ++ [st1; st2] ∧
  bodies (w twice.2) = bodies (w s) ++ [p1; p2].
Proof.
  intros _ _. cbv zeta. unfold bind. rewrite !JsonWithStatus_run. cbn.
  split; [reflexivity|]. split; [reflexivity|].
  split; [rewrite lookup_insert_ne by discriminate; apply lookup_insert_eq|].
  split; [apply lookup_insert_eq|].
  split; [|split; rewrite <- app_assoc; reflexivity].
  apply map_eq. intros k.
  destruct (decide (k = "X-Content-Type-Options")) as [->|Hx].
  - rewrite !lookup_insert_eq. reflexivity.
  - rewrite (lookup_insert_ne _ "X-Content-Type-Options" k) by congruence.
    destruct (decide (k = "Content-Type")) as [->|Hc].
    + rewrite lookup_insert_eq.
      rewrite lookup_insert_ne by discriminate. rewrite lookup_insert_eq. reflexivity.
    + rewrite !lookup_insert_ne by congruence. reflexivity.
Qed.

Lemma JsonWithStatus_sets_headers_witness :
  let s := (ErrorWithStatus 400 (AString "bad input") fresh).2 in
  let once := JsonWithStatus 201 (AInt 7) s in
  let twice := (JsonWithStatus 201 (AInt 7) ;;; JsonWithStatus 200 (AInt 8)) s in
  once.1 = Returns tt ∧
  logs once.2 = logs s ∧
  header (w once.2) !! "Content-Type" = Some ["application/json"] ∧
  header (w once.2) !! "X-Content-Type-Options" = Some ["nosniff"] ∧
  header (w twice.2) = header (w once.2) ∧
  codes (w twice.2) = codes (w s) ++ [201; 200] ∧
  bodies (w twice.2) = bodies (w s) ++ [AInt 7; AInt 8].
Proof.
  exact (JsonWithStatus_sets_headers 201 200 (AInt 7) (AInt 8)
           (ErrorWithStatus 400 (AString "bad input") fresh).2
           ltac:(lia) ltac:(lia)).
Defined.

(** X9. The middleware does not look at what the handler has already
    written.  A handler that sends a JSON response and then fails an
    assertion below 500 ends with two status codes and two bodies in the
    writer, and with two values under [Content-Type]. *)
Theorem recoverer_answers_after_a_response {imports : Imports} (st1 st2 : Z) (p x : any)
    (m : string) (s : world) :
  error_Error (toErr x) = Returns m →
  st2 < 500 →
  let next := JsonWithStatus st1 p ;;; Assersion.AssertWithStatus false st2 x in
  let run := Assersion.MiddlewareHTTPAssersionRecoverer next (enter s) in
  run.1 = Returns tt ∧
  codes (w (wld run.2)) = codes (w s) ++ [st1; st2] ∧
  bodies (w (wld run.2)) = bodies (w s) ++ [p; failure m] ∧
  header (w (wld run.2)) !! "Content-Type"
    = Some ["application/json"; "application/json"].
Proof.
  intros Hm Hst next run.
  assert (Hnext : next s =
    (Panics (AErr (Value (mk_httperror st2 (toErr x)))),
     mk_world (logs s ++ [LogPrintf "AssersionError(HTTP: %v): %s" [AInt st2; x]])
              (JsonWithStatus st1 p s).2.(w))).
  { unfold next, bind. rewrite JsonWithStatus_run. reflexivity. }
  subst run. unfold Assersion.MiddlewareHTTPAssersionRecoverer.
  erewrite defer_recover_run by (apply lift_run; exact Hnext).
  cbn [enter cancel_calls wld].
  destruct (Assersion_recovered_classified
              (AErr (Value (mk_httperror st2 (toErr x))))
              (Value (mk_httperror st2 (toErr x))) st2 m
              (mk_request
                 (mk_world
                    (logs s ++ [LogPrintf "AssersionError(HTTP: %v): %s" [AInt st2; x]])
                    (JsonWithStatus st1 p s).2.(w)) 0)
              eq_refl Hm) as [said ->].
  rewrite JsonWithStatus_run. cbn [fst snd wld w answered codes bodies header].
  rewrite body_for_client by exact Hst.
  repeat split.
  - rewrite <- app_assoc. reflexivity.
  - rewrite <- app_assoc. reflexivity.
  - rewrite lookup_insert_eq.
    rewrite lookup_insert_ne by discriminate. rewrite lookup_insert_eq. reflexivity.
Qed.

Lemma recoverer_answers_after_a_response_witness :
  let next := JsonWithStatus 200 (AString "partial") ;;;
              Assersion.AssertWithStatus false 409 (AString "conflict") in
  let run := Assersion.MiddlewareHTTPAssersionRecoverer (imports := no_causes)
               next (enter fresh) in
  run.1 = Returns tt ∧
  codes (w (wld run.2)) = codes (w fresh) ++ [200; 409] ∧
  bodies (w (wld run.2)) = bodies (w fresh) ++ [AString "partial"; failure "conflict"] ∧
  header (w (wld run.2)) !! "Content-Type"
    = Some ["application/json"; "application/json"].
Proof.
  exact (recoverer_answers_after_a_response (imports := no_causes) 200 409
           (AString "partial") (AString "conflict") "conflict" fresh eq_refl
           ltac:(lia)).
Defined.

(** ** The middleware of the file that imports go-assert *)

Lemma ErrorWithStatus_outcome (st : Z) (x : any) (s : world) :
  (ErrorWithStatus st x s).1 = Returns tt ∨
  (ErrorWithStatus st x s).1 = Panics nil_dereference.
Proof.
  rewrite ErrorWithStatus_run.
  destruct (error_Error (ErrorWithStatus_err_ x)) as [m|v] eqn:Hm; [left; reflexivity|].
  right. apply error_Error_panics in Hm. subst v. reflexivity.
Qed.

Lemma InternalErrorWithStatus_outcome {imports : Imports} (st : Z) (e : error) (s : world) :
  (InternalErrorWithStatus st e s).1 = Returns tt ∨
  (InternalErrorWithStatus st e s).1 = Panics nil_dereference.
Proof.
  destruct (error_Error e) as [m|v] eqn:Hm.
  - destruct (InternalErrorWithStatus_run st e m s Hm) as [args ->]. left. reflexivity.
  - rewrite (InternalErrorWithStatus_panics st e v s Hm).
    apply error_Error_panics in Hm. subst v. right. reflexivity.
Qed.

Lemma WithGoAssert_respond_outcome {imports : Imports} (r : any) (s : world) :
  (WithGoAssert.respond r s).1 = Returns tt ∨
  (WithGoAssert.respond r s).1 = Panics nil_dereference.
Proof.
  unfold WithGoAssert.respond, InternalError.
  destruct (as_httperror r) as [herr|].
  - destruct (Status herr >=? StatusInternalServerError).
    + apply InternalErrorWithStatus_outcome.
    + apply ErrorWithStatus_outcome.
  - destruct r; cbn [as_error]; apply InternalErrorWithStatus_outcome.
Qed.

(** X10. The middleware of the file that imports go-assert contains every
    panic of the handler and always releases the request: however the
    handler ends, the cancel function is called exactly once, and the
    middleware either returns normally or panics with the nil dereference of
    an error without a message; it never raises the handler's own panic
    value again. *)
Theorem WithGoAssert_recoverer_contains_and_releases {imports : Imports}
    (next : M world unit) (s : world) :
  let run := WithGoAssert.MiddlewareHTTPAssertionRecoverer next (enter s) in
  cancel_calls run.2 = 1%nat ∧
  (run.1 = Returns tt ∨ run.1 = Panics nil_dereference).
Proof.
  cbv zeta. split; [apply WithGoAssert_cancels_exactly_once|].
  unfold WithGoAssert.MiddlewareHTTPAssertionRecoverer.
  destruct (next s) as [[[]|r] s1] eqn:Hnext;
    erewrite defer_recover_run by (apply lift_run; exact Hnext);
    cbn [enter cancel_calls wld].
  - left. reflexivity.
  - destruct (is_nil r) eqn:Hn.
    + left. unfold WithGoAssert.recovered, defer. rewrite Hn. reflexivity.
    + destruct (WithGoAssert.respond r
        (mk_world (logs s1 ++ [LogPrintf "checking the error object %T" [r]]) (w s1)))
        as [o s'] eqn:Hrun.
      rewrite (WithGoAssert_recovered_run r (mk_request s1 0) o s' Hn Hrun).
      pose proof (WithGoAssert_respond_outcome r
        (mk_world (logs s1 ++ [LogPrintf "checking the error object %T" [r]]) (w s1)))
        as Ho.
      rewrite Hrun in Ho. exact Ho.
Qed.

(** X11. In that middleware only the struct [httperror] keeps its status.
    Any other error value, be it the pointer [NewError] returns or a value
    of a foreign type with a [Status()] of its own, and any
    [assert.AssersionError], is answered with 500 and the fixed body, when
    the error has a message. *)
Theorem WithGoAssert_answers_other_errors_with_500 {imports : Imports}
    (next : M world unit) (s s1 : world) (r : any) (e : goerror) (m : string) :
  next s = (Panics r, s1) →
  (r = AErr e ∧ as_httperror r = None) ∨ (∃ u, r = AAssersion e u) →
  Error_of e = Returns m →
  let run := WithGoAssert.MiddlewareHTTPAssertionRecoverer next (enter s) in
  run.1 = Returns tt ∧
  w (wld run.2) = answered (w s1) 500 (failure "internal server error").
Proof.
  intros Hnext Hr Hm.
  assert (Hn : is_nil r = false) by (destruct Hr as [[-> _]|[u ->]]; reflexivity).
  destruct (InternalErrorWithStatus_run 500 (Some e) m
    (mk_world (logs s1 ++ [LogPrintf "checking the error object %T" [r]]) (w s1)) Hm)
    as [args Hrun].
  assert (Hresp : WithGoAssert.respond r
    (mk_world (logs s1 ++ [LogPrintf "checking the error object %T" [r]]) (w s1))
    = InternalErrorWithStatus 500 (Some e)
        (mk_world (logs s1 ++ [LogPrintf "checking the error object %T" [r]]) (w s1))).
  { unfold WithGoAssert.respond, InternalError.
    destruct Hr as [[-> Hh]|[u ->]]; [rewrite Hh|]; reflexivity. }
  rewrite Hrun in Hresp.
  cbv zeta. rewrite (WithGoAssert_middleware_run next s s1 r _ _ Hnext Hn Hresp).
  split; reflexivity.
Qed.

Lemma WithGoAssert_answers_other_errors_with_500_witness :
  let r := of_error (NewError 404 (New "no such page")) in
  let run := WithGoAssert.MiddlewareHTTPAssertionRecoverer (imports := no_causes)
               (panic r) (enter fresh) in
  run.1 = Returns tt ∧
  w (wld run.2) = answered (w fresh) 500 (failure "internal server error").
Proof.
  exact (WithGoAssert_answers_other_errors_with_500 (imports := no_causes)
           (panic (of_error (NewError 404 (New "no such page")))) fresh fresh _
           (Pointer (mk_httperror 404 (New "no such page"))) "no such page"
           eq_refl (or_introl (conj eq_refl eq_refl)) eq_refl).
Defined.

(** X12. The struct [httperror], the value the assertions panic with, is
    answered by that middleware as by the re-panicking ones: its own status,
    its message below 500 and the fixed text from 500 on. *)
Theorem WithGoAssert_answers_httperror_struct {imports : Imports} (next : M world unit)
    (s s1 : world) (he : httperror) (m : string) :
  next s = (Panics (AErr (Value he)), s1) →
  Error he = Returns m →
  answers WithGoAssert.MiddlewareHTTPAssertionRecoverer next s s1 (Status he) m.
Proof.
  intros Hnext Hm. unfold answers.
  set (logged := mk_world
    (logs s1 ++ [LogPrintf "checking the error object %T" [AErr (Value he)]]) (w s1)).
  destruct (Status he >=? StatusInternalServerError) eqn:Hge.
  - destruct (InternalErrorWithStatus_run (Status he) (Some (Value he)) m logged Hm)
      as [args Hrun].
    assert (Hresp : WithGoAssert.respond (AErr (Value he)) logged = _)
      by (unfold WithGoAssert.respond; cbn [as_httperror]; rewrite Hge; exact Hrun).
    rewrite (WithGoAssert_middleware_run next s s1 _ _ _ Hnext eq_refl Hresp).
    cbn [fst snd wld w answered codes bodies logged].
    apply Z.geb_le in Hge. unfold StatusInternalServerError in Hge.
    split; [reflexivity|]. split; [reflexivity|]. split; [lia|reflexivity].
  - eassert (Hresp : WithGoAssert.respond (AErr (Value he)) logged = _).
    { unfold WithGoAssert.respond. cbn [as_httperror]. rewrite Hge.
      rewrite ErrorWithStatus_run. cbn [ErrorWithStatus_err_ as_error error_Error].
      change (Error_of (Value he)) with (Error he). rewrite Hm. reflexivity. }
    rewrite (WithGoAssert_middleware_run next s s1 _ _ _ Hnext eq_refl Hresp).
    cbn [fst snd wld w answered codes bodies logged].
    split; [reflexivity|]. split; [reflexivity|]. split; [reflexivity|].
    intros Hle. assert ((Status he >=? StatusInternalServerError) = true)
      by (apply Z.geb_le; unfold StatusInternalServerError; lia).
    congruence.
Qed.

Lemma WithGoAssert_answers_httperror_struct_witness :
  let next := WithGoAssert.AssertWithStatus false 403 (AString "account disabled") in
  let s1 := (next fresh).2 in
  answers (WithGoAssert.MiddlewareHTTPAssertionRecoverer (imports := no_causes))
    next fresh s1 403 "account disabled".
Proof.
  exact (WithGoAssert_answers_httperror_struct (imports := no_causes)
           (WithGoAssert.AssertWithStatus false 403 (AString "account disabled"))
           fresh _ (mk_httperror 403 (New "account disabled")) "account disabled"
           eq_refl eq_refl).
Defined.

(** X13. A panic value that is no error at all, such as a string, is
    answered by that middleware with 500 and the fixed body too; the value is
    named in the log twice, by its type and formatted into the message of the
    logged error, and the request is released. *)
Theorem WithGoAssert_answers_values_with_500 {imports : Imports} (next : M world unit)
    (s s1 : world) (r : any) :
  next s = (Panics r, s1) →
  is_nil r = false →
  as_error r = None →
  match r with AAssersion _ _ => False | _ => True end →
  WithGoAssert.MiddlewareHTTPAssertionRecoverer next (enter s) =
  (Returns tt,
   mk_request
     (mk_world
        (logs s1 ++
           [LogPrintf "checking the error object %T" [r];
            SlogError ("internal error: " +:+ Sprintf "unknown error object %s" r) []])
        (answered (w s1) 500 (failure "internal server error")))
     1).
Proof.
  intros Hnext Hn He Ha.
  eapply WithGoAssert_middleware_run; [exact Hnext|exact Hn|].
  destruct r; try discriminate; try contradiction; cbn;
    rewrite <- app_assoc; reflexivity.
Qed.

Lemma WithGoAssert_answers_values_with_500_witness :
  let r := AString "index out of range" in
  WithGoAssert.MiddlewareHTTPAssertionRecoverer (imports := no_causes)
    (panic r) (enter fresh) =
  (Returns tt,
   mk_request
     (mk_world
        (logs fresh ++
           [LogPrintf "checking the error object %T" [r];
            SlogError ("internal error: " +:+ "unknown error object %s") []])
        (answered (w fresh) 500 (failure "internal server error")))
     1).
Proof.
  exact (WithGoAssert_answers_values_with_500 (imports := no_causes)
           (panic (AString "index out of range")) fresh fresh _
           eq_refl eq_refl eq_refl I).
Defined.

(** X14. The [toErr] of the file that imports go-assert is the plain
    [toErr] applied to what is inside the [AssersionError] wrappers: the two
    agree on every value that is not such a wrapper, and a wrapped value is
    normalized as the value it wraps. *)
Theorem WithGoAssert_toErr_normalizes_unwrapped (x : any) :
  WithGoAssert.toErr x = toErr (unwrapped x) ∧
  unwrapped (unwrapped x) = unwrapped x ∧
  match x with
  | AAssersion _ u => WithGoAssert.toErr x = WithGoAssert.toErr u
  | _ => WithGoAssert.toErr x = toErr x
  end.
Proof.
  split; [|split].
  - induction x; cbn; auto.
  - induction x; cbn; auto.
  - destruct x; reflexivity.
Qed.

(** ** The earlier response helper *)

(** X15. The earlier [ErrorWithStatus] behaves as the present one on
    strings and on error values.  On any other value, nil included, it panics
    on the conversion to string after the log line and before anything is
    written, where the present one answers with the message
    "unknown error occured". *)
Theorem Earlier_ErrorWithStatus_agrees_or_panics (st : Z) (x : any) (s : world) :
  match x with
  | AString _ | AErr _ => Earlier.ErrorWithStatus st x s = ErrorWithStatus st x s
  | _ =>
      (∃ v, Earlier.ErrorWithStatus st x s =
            (Panics v,
             mk_world
               (logs s ++
                  [SlogError "failed" [AString "status"; AInt st; AString "error"; x]])
               (w s))) ∧
      ErrorWithStatus st x s =
      (Returns tt,
       mk_world
         (logs s ++ [SlogError "failed" [AString "status"; AInt st; AString "error"; x]])
         (answered (w s) st (failure "unknown error occured")))
  end.
Proof.
  destruct x; try (split; [eexists; reflexivity|reflexivity]); reflexivity.
Qed.

(** ** The re-panicking middleware, once more *)

Lemma Assersion_no_cancel_when_Error_panics {imports : Imports} (next : M world unit)
    (s s1 : world) (r : any) (herr : goerror) (st : Z) (v : any) :
  next s = (Panics r, s1) →
  as_HttpError r = Some (herr, st) →
  Error_of herr = Panics v →
  cancel_calls (Assersion.MiddlewareHTTPAssersionRecoverer next (enter s)).2 = 0%nat.
Proof.
  intros Hnext Hr Hm. unfold Assersion.MiddlewareHTTPAssersionRecoverer.
  erewrite defer_recover_run by (apply lift_run; exact Hnext).
  cbn [enter cancel_calls wld]. unfold Assersion.recovered.
  apply as_HttpError_inv in Hr as Hinv. destruct Hinv as [-> Hs].
  cbn [is_nil negb]. rewrite Hr. unfold bind.
  destruct (st >=? StatusInternalServerError).
  - erewrite lift_run by (apply InternalErrorWithStatus_panics; exact Hm). reflexivity.
  - erewrite lift_run
      by (rewrite ErrorWithStatus_run;
          cbn [ErrorWithStatus_err_ as_error error_Error]; rewrite Hm; reflexivity).
    reflexivity.
Qed.

(** X16. [MiddlewareHTTPAssersionRecoverer] calls the cancel function at
    most once, and exactly when it has answered a panic: the handler panicked
    with a value that satisfies [HttpError] and whose [Error()] returns.  A
    handler that returns, a panic that is passed on and a status error
    without a message all leave it uncalled. *)
Theorem recoverer_cancels_exactly_when_it_answers {imports : Imports}
    (next : M world unit) (s : world) :
  cancel_calls (Assersion.MiddlewareHTTPAssersionRecoverer next (enter s)).2 =
  match (next s).1 with
  | Returns _ => 0%nat
  | Panics r =>
      match as_HttpError r with
      | Some (herr, _) =>
          match Error_of herr with
          | Returns _ => 1%nat
          | Panics _ => 0%nat
          end
      | None => 0%nat
      end
  end.
Proof.
  destruct (next s) as [o s1] eqn:Hnext. cbn [fst].
  destruct o as [[]|r].
  - apply (Assersion_no_cancel_without_answer next s s1 (Returns tt) Hnext I).
  - destruct (as_HttpError r) as [[herr st]|] eqn:Hr.
    + destruct (Error_of herr) as [m|v] eqn:Hm.
      * unfold Assersion.MiddlewareHTTPAssersionRecoverer.
        erewrite defer_recover_run by (apply lift_run; exact Hnext).
        cbn [enter cancel_calls wld].
        destruct (Assersion_recovered_classified r herr st m (mk_request s1 0) Hr Hm)
          as [said ->].
        reflexivity.
      * exact (Assersion_no_cancel_when_Error_panics next s s1 r herr st v Hnext Hr Hm).
    + apply (Assersion_no_cancel_without_answer next s s1 (Panics r) Hnext).
      right. exact Hr.
Qed.

(** X17. An answered panic leaves exactly one line in the log.  From status
    500 on it is the line of [InternalErrorWithStatus], whose text carries
    the message that the body withholds; below 500 it is the line of
    [ErrorWithStatus], which carries the status and the panic value. *)
Theorem answered_panic_logs_one_line {imports : Imports} (next : M world unit)
    (s s1 : world) (r : any) (herr : goerror) (st : Z) (m : string) :
  next s = (Panics r, s1) →
  as_HttpError r = Some (herr, st) →
  Error_of herr = Returns m →
  let run := Assersion.MiddlewareHTTPAssersionRecoverer next (enter s) in
  (500 ≤ st →
     ∃ args, logs (wld run.2) = logs s1 ++ [SlogError ("internal error: " +:+ m) args]) ∧
  (st < 500 →
     logs (wld run.2) = logs s1 ++
       [SlogError "failed" [AString "status"; AInt st; AString "error"; r]]).
Proof.
  intros Hnext Hr Hm.
  unfold Assersion.MiddlewareHTTPAssersionRecoverer.
  erewrite defer_recover_run by (apply lift_run; exact Hnext).
  cbn [enter cancel_calls wld]. unfold Assersion.recovered.
  apply as_HttpError_inv in Hr as Hinv. destruct Hinv as [-> Hs].
  cbn [is_nil negb]. rewrite Hr. unfold bind.
  destruct (st >=? StatusInternalServerError) eqn:Hge.
  - destruct (InternalErrorWithStatus_run st (Some herr) m s1 Hm) as [args Hrun].
    rewrite (lift_run _ (mk_request s1 0) _ _ Hrun). cbn. split.
    + intros _. exists args. reflexivity.
    + intros Hlt. apply Z.geb_le in Hge. unfold StatusInternalServerError in Hge. lia.
  - erewrite lift_run
      by (rewrite ErrorWithStatus_run;
          cbn [ErrorWithStatus_err_ as_error error_Error]; rewrite Hm; reflexivity).
    cbn. split.
    + intros Hle. assert ((st >=? StatusInternalServerError) = true)
        by (apply Z.geb_le; unfold StatusInternalServerError; lia).
      congruence.
    + intros _. reflexivity.
Qed.

Lemma answered_panic_logs_one_line_witness :
  let next := panic (of_error (NewError 503 (New "db down"))) in
  let run := Assersion.MiddlewareHTTPAssersionRecoverer (imports := no_causes)
               next (enter fresh) in
  (500 ≤ 503 →
     ∃ args, logs (wld run.2) = logs fresh ++ [SlogError ("internal error: " +:+ "db down") args]) ∧
  (503 < 500 →
     logs (wld run.2) = logs fresh ++
       [SlogError "failed" [AString "status"; AInt 503; AString "error";
                            of_error (NewError 503 (New "db down"))]]).
Proof.
  exact (answered_panic_logs_one_line (imports := no_causes)
           (panic (of_error (NewError 503 (New "db down")))) fresh fresh _ _ 503
           "db down" eq_refl eq_refl eq_refl).
Defined.

(** X18. [ErrorWithStatus] cannot panic on a value that is not an error: a
    string is answered with its own text, and anything else, nil included,
    with the message "unknown error occured". *)
Theorem ErrorWithStatus_answers_non_errors (st : Z) (x : any) (s : world) :
  as_error x = None →
  ErrorWithStatus st x s =
  (Returns tt,
   mk_world
     (logs s ++ [SlogError "failed" [AString "status"; AInt st; AString "error"; x]])
     (answered (w s) st
        (failure (match x with AString t => t | _ => "unknown error occured" end)))).
Proof.
  intros He. rewrite ErrorWithStatus_run.
  destruct x; try discriminate He; reflexivity.
Qed.

Lemma ErrorWithStatus_answers_non_errors_witness :
  ErrorWithStatus 400 ANil fresh =
  (Returns tt,
   mk_world
     (logs fresh ++ [SlogError "failed" [AString "status"; AInt 400; AString "error"; ANil]])
     (answered (w fresh) 400 (failure "unknown error occured"))).
Proof.
  exact (ErrorWithStatus_answers_non_errors 400 ANil fresh eq_refl).
Defined.

(** ** The assertions of the file that imports go-assert *)

(** X19. The assertions of that file abandon as the others do, with the
    status given (500 for the bare forms) and never a nil cause, and they
    leave the world alone when the check holds.  They differ in two ways: the
    cause is the normalization of what is inside the [AssersionError]
    wrappers of the input, and the log line carries that normalized error
    rather than the input. *)
Theorem WithGoAssert_assertions_abandon (condition : bool) (st : Z) (x : any)
    (e : goerror) (s : world) :
  (if condition
   then WithGoAssert.AssertWithStatus condition st x s = (Returns tt, s)
   else abandons (WithGoAssert.AssertWithStatus condition st x s) s st
          (toErr (unwrapped x))) ∧
  (if condition
   then WithGoAssert.Assert condition x s = (Returns tt, s)
   else abandons (WithGoAssert.Assert condition x s) s 500 (toErr (unwrapped x))) ∧
  (if is_nil x
   then WithGoAssert.AssertErrorIsNilWithStatus st x s = (Returns tt, s)
   else abandons (WithGoAssert.AssertErrorIsNilWithStatus st x s) s st
          (toErr (unwrapped x))) ∧
  WithGoAssert.AssertErrorIsNil None s = (Returns tt, s) ∧
  abandons (WithGoAssert.AssertErrorIsNil (Some e) s) s 500 (Some e) ∧
  is_Some (toErr (unwrapped x)) ∧
  logs (WithGoAssert.AssertWithStatus false st x s).2 =
    logs s ++ [LogPrintf "AssertionError(HTTP: %v): %s"
                 [AInt st; of_error (toErr (unwrapped x))]].
Proof.
  assert (Hto : WithGoAssert.toErr x = toErr (unwrapped x))
    by (induction x; cbn; auto).
  split; [|split; [|split; [|split; [|split; [|split]]]]].
  - destruct condition; [reflexivity|]. eexists. rewrite <- Hto. repeat split.
  - destruct condition; [reflexivity|]. eexists. rewrite <- Hto. repeat split.
  - destruct (is_nil x) eqn:Hx; unfold WithGoAssert.AssertErrorIsNilWithStatus;
      rewrite Hx; [reflexivity|]. eexists. rewrite <- Hto. repeat split.
  - reflexivity.
  - eexists. repeat split.
  - destruct (unwrapped x); cbn; eauto.
  - rewrite <- Hto. reflexivity.
Qed.

(** ** Status errors and envelopes *)

(** X20. Wrapping keeps the message and replaces the status: a status error
    built by [NewError] around any number of further [NewError] values has
    the status given last and the message of the innermost error, and its
    [Error()] panics exactly when that of the innermost error does. *)
Theorem NewError_wraps_message (st : Z) (sts : list Z) (e : error) :
  ∃ d : goerror,
    foldr NewError e (st :: sts) = Some d ∧
    Status_of d = Some st ∧
    Error_of d = error_Error e ∧
    as_HttpError (AErr d) = Some (d, st).
Proof.
  assert (Hin : ∀ l : list Z, error_Error (foldr NewError e l) = error_Error e).
  { induction l as [|a l IH]; [reflexivity|]. cbn. exact IH. }
  exists (Pointer (mk_httperror st (foldr NewError e sts))).
  split; [reflexivity|]. split; [reflexivity|]. split; [|reflexivity].
  exact (Hin sts).
Qed.

(** X21. The earlier [Cause()] gives back the underlying error itself or
    nil, never anything else: whenever it is not nil it is what the present
    [Cause()] returns.  It is nil for a nil underlying error, and it is the
    underlying error when that is a status error of this package. *)
Theorem Earlier_Cause_is_underlying_or_nil {imports : Imports} (he he' : httperror)
    (st : Z) :
  match Earlier.Cause he with
  | Some e => Cause he = Some e
  | None => True
  end ∧
  Earlier.Cause (mk_httperror st None) = None ∧
  Earlier.Cause (mk_httperror st (Some (Value he'))) = Some (Value he') ∧
  Earlier.Cause (mk_httperror st (NewError (Status he') (Cause he')))
    = NewError (Status he') (Cause he').
Proof.
  split; [|repeat split].
  unfold Earlier.Cause, Cause.
  destruct (as_ErrorWithCause (err he)) as [[ewc c]|] eqn:Hwc; [|exact I].
  apply as_ErrorWithCause_same in Hwc. exact Hwc.
Qed.

(** X22. The envelopes can be read back.  [Message] and [MessageWithStatus]
    write an object with ["ok"] true and the text under ["message"]; [OK]
    writes ["ok"] true and no message; [ErrorWithStatus] on a string and
    [InternalErrorWithStatus] write ["ok"] false, the former with the text
    and the latter with the fixed text whatever the error says. *)
Theorem envelopes_read_back {imports : Imports} (st : Z) (text : string) (s : world) :
  (last_ok (MessageWithStatus st text s).2 = Some (ABool true) ∧
   last_message (MessageWithStatus st text s).2 = Some (AString text)) ∧
  (last_ok (Message text s).2 = Some (ABool true) ∧
   last_message (Message text s).2 = Some (AString text)) ∧
  (last_ok (OK s).2 = Some (ABool true) ∧ last_message (OK s).2 = None) ∧
  (last_ok (ErrorWithStatus st (AString text) s).2 = Some (ABool false) ∧
   last_message (ErrorWithStatus st (AString text) s).2 = Some (AString text)) ∧
  (last_ok (InternalErrorWithStatus st (New text) s).2 = Some (ABool false) ∧
   last_message (InternalErrorWithStatus st (New text) s).2
     = Some (AString "internal server error")).
Proof.
  assert (Hok : ∀ (b : bool) (t : string),
    ({[ "ok" := ABool b; "message" := AString t ]} : gmap string any) !! "ok"
      = Some (ABool b)) by (intros; apply lookup_insert_eq).
  assert (Hmsg : ∀ (b : bool) (t : string),
    ({[ "ok" := ABool b; "message" := AString t ]} : gmap string any) !! "message"
      = Some (AString t)).
  { intros. rewrite lookup_insert_ne by discriminate. apply lookup_singleton_eq. }
  destruct (InternalErrorWithStatus_run st (New text) text s eq_refl) as [args Hrun].
  rewrite Hrun, ErrorWithStatus_run.
  unfold last_ok, last_message, MessageWithStatus, Message, OK.
  rewrite !JsonWithStatus_run.
  cbn [snd w bodies answered failure ErrorWithStatus_err_ as_error as_string
       error_Error New Error_of].
  rewrite !last_snoc.
  repeat split; auto.
Qed.
